(** * A shallow embedding of the [log] package (log.go)

    The package is a facade over zap, lumberjack and file-rotatelogs.  The
    embedding keeps the package's own control flow (level parsing, the
    date-suffix file name, the retention switch, the global [Logger] and
    [Sugar] variables, the [sync.Once] guard of [Default], the nil checks of
    the logging entry points) and represents the libraries by the values the
    package hands to them and by the few facts of their behaviour the package
    relies on. *)

From Stdlib Require Import ZArith List String Ascii Bool Lia.
Import ListNotations.

Local Open Scope string_scope.
Local Open Scope Z_scope.

(** ** Go machine integers

    [int] and [uint] are 64 bits wide on the platforms the package is built
    for, [time.Duration] is an [int64].  Values are carried as [Z]; every
    conversion and every run-time multiplication is wrapped explicitly. *)

Module GoInt.

Definition modulus : Z := 2 ^ 64.
Definition half_modulus : Z := 2 ^ 63.

(** the value an [int] (or [int64]) holds after a wrap-around *)
Definition to_int (z : Z) : Z := (z + half_modulus) mod modulus - half_modulus.

(** the value a [uint] holds: conversion [uint(x)] *)
Definition to_uint (z : Z) : Z := z mod modulus.

Definition is_int (z : Z) : Prop := - half_modulus <= z < half_modulus.
Definition is_uint (z : Z) : Prop := 0 <= z < modulus.

End GoInt.

(** ** package time *)

Module GoTime.

(** [time.Duration]: nanoseconds in an [int64] *)
Definition Duration : Type := Z.

Definition Nanosecond : Duration := 1.
Definition Second : Duration := 1000000000 * Nanosecond.
Definition Minute : Duration := 60 * Second.
Definition Hour : Duration := 60 * Minute.

(** run-time product of two durations, as the [int64] multiplication it is *)
Definition mul (a b : Duration) : Duration := GoInt.to_int (a * b).

End GoTime.

(** ** package strings *)

Module Strings.

Definition len (s : string) : nat := String.length s.

(** [s[i:]] for [i <= len(s)] *)
Definition slice_from (s : string) (i : nat) : string :=
  substring i (len s - i) s.

(** [s[:i]] for [i <= len(s)] *)
Definition slice_to (s : string) (i : nat) : string :=
  substring 0 i s.

(** [strings.HasSuffix]: [len(s) >= len(suffix) && s[len(s)-len(suffix):] == suffix] *)
Definition HasSuffix (s suffix : string) : bool :=
  (len suffix <=? len s)%nat
  && String.eqb (slice_from s (len s - len suffix)) suffix.

(** [strings.TrimSuffix] *)
Definition TrimSuffix (s suffix : string) : string :=
  if HasSuffix s suffix then slice_to s (len s - len suffix) else s.

Fixpoint map_bytes (f : ascii -> ascii) (s : string) : string :=
  match s with
  | EmptyString => EmptyString
  | String c r => String (f c) (map_bytes f r)
  end.

Fixpoint all_bytes (p : ascii -> bool) (s : string) : bool :=
  match s with
  | EmptyString => true
  | String c r => p c && all_bytes p r
  end.

(** [c < utf8.RuneSelf] *)
Definition is_ascii_byte (c : ascii) : bool := (nat_of_ascii c <? 128)%nat.

(** ['a' <= c && c <= 'z'] *)
Definition is_lower (c : ascii) : bool :=
  (97 <=? nat_of_ascii c)%nat && (nat_of_ascii c <=? 122)%nat.

(** [c -= 'a' - 'A'] on a lower-case letter, other bytes unchanged *)
Definition upper_byte (c : ascii) : ascii :=
  if is_lower c then ascii_of_nat (nat_of_ascii c - 32) else c.

(** [strings.ToUpper].  A string made of ASCII bytes only takes the
    byte-wise path of the library; any other string goes through
    [strings.Map(unicode.ToUpper, s)], whose case tables are not part of
    this development and are taken as the parameter [unicode_upper]. *)
Definition ToUpper (unicode_upper : string -> string) (s : string) : string :=
  if all_bytes is_ascii_byte s then map_bytes upper_byte s
  else unicode_upper s.

End Strings.

(** ** package path/filepath *)

Module Filepath.

(** the operating system the program is built for *)
Inductive GOOS : Type := unix | windows.

(** [os.IsPathSeparator]: the slash, and on Windows also the backslash *)
Definition IsPathSeparator (goos : GOOS) (c : ascii) : bool :=
  match goos with
  | unix => Ascii.eqb c "/"%char
  | windows => Ascii.eqb c "/"%char || Ascii.eqb c "\"%char
  end.

(** The loop of [filepath.Ext]:
    [for i := len(path) - 1; i >= 0 && !os.IsPathSeparator(path[i]); i--]
    with [n = i + 1]. *)
Fixpoint Ext_loop (goos : GOOS) (path : string) (n : nat) : string :=
  match n with
  | O => ""
  | S i =>
      match String.get i path with
      | Some c =>
          if IsPathSeparator goos c then ""
          else if Ascii.eqb c "."%char then Strings.slice_from path i
          else Ext_loop goos path i
      | None => ""
      end
  end.

Definition Ext (goos : GOOS) (path : string) : string :=
  Ext_loop goos path (Strings.len path).

End Filepath.

(** ** package lumberjack: the size-rotating writer is a plain struct *)

Module Lumberjack.

Record Logger : Type := {
  Filename : string;
  MaxSize : Z;
  LocalTime : bool;
  MaxBackups : Z;
  MaxAge : Z;
  Compress : bool
}.

End Lumberjack.

(** ** package rotatelogs: options and the writer built from them *)

Module Rotatelogs.

Inductive Option : Type :=
| WithLinkName (name : string)
| WithRotationTime (d : GoTime.Duration)
| WithMaxAge (d : GoTime.Duration)
| WithRotationCount (n : Z).          (* a [uint] *)

(** an option that sets a retention policy *)
Definition is_retention (o : Option) : bool :=
  match o with
  | WithMaxAge _ | WithRotationCount _ => true
  | _ => false
  end.

(** what [rotatelogs.New] was called with; a successful call returns a
    writer configured by exactly these *)
Record RotateLogs : Type := {
  pattern : string;
  options : list Option
}.

End Rotatelogs.

(** ** package zapcore: levels, encoders, sinks, cores *)

Module Zapcore.

Inductive Level : Type :=
| DebugLevel | InfoLevel | WarnLevel | ErrorLevel
| DPanicLevel | PanicLevel | FatalLevel.

(** the numeric value of the [int8] constant *)
Definition level_value (l : Level) : Z :=
  match l with
  | DebugLevel => -1
  | InfoLevel => 0
  | WarnLevel => 1
  | ErrorLevel => 2
  | DPanicLevel => 3
  | PanicLevel => 4
  | FatalLevel => 5
  end.

(** [Level.CapitalString] *)
Definition CapitalString (l : Level) : string :=
  match l with
  | DebugLevel => "DEBUG"
  | InfoLevel => "INFO"
  | WarnLevel => "WARN"
  | ErrorLevel => "ERROR"
  | DPanicLevel => "DPANIC"
  | PanicLevel => "PANIC"
  | FatalLevel => "FATAL"
  end.

Definition all_levels : list Level :=
  [DebugLevel; InfoLevel; WarnLevel; ErrorLevel; DPanicLevel; PanicLevel; FatalLevel].

(** [Level.Enabled]: a core of minimum level [min] takes a record of
    level [l] when [l >= min] *)
Definition Enabled (min l : Level) : bool :=
  level_value min <=? level_value l.

Inductive EncoderPreset : Type :=
| ProductionEncoderConfig     (* zap.NewProductionEncoderConfig() *)
| DevelopmentEncoderConfig.   (* zap.NewDevelopmentEncoderConfig() *)

Inductive TimeEncoder : Type :=
| PresetTimeEncoder           (* whatever the preset carries *)
| RFC3339TimeEncoder.         (* the package's [timeEncoder] *)

Inductive LevelEncoder : Type :=
| PresetLevelEncoder
| CapitalLevelEncoder.

Record EncoderConfig : Type := {
  preset : EncoderPreset;
  EncodeTime : TimeEncoder;
  EncodeLevel : LevelEncoder
}.

(** the destinations the package builds *)
Inductive WriteSyncer : Type :=
| FileBySize (w : Lumberjack.Logger)       (* zapcore.AddSync(&lumberjack.Logger{...}) *)
| FileByDate (w : Rotatelogs.RotateLogs)   (* zapcore.AddSync(rotateLogs) *)
| Stdout.                                  (* zapcore.WriteSyncer(os.Stdout) *)

(** [zapcore.NewCore(zapcore.NewConsoleEncoder(cfg), ws, level)] *)
Record Core : Type := NewCore {
  encoder : EncoderConfig;
  syncer : WriteSyncer;
  enabler : Level
}.

End Zapcore.


(** ** package zap: loggers *)

Module Zap.

(** [zap.New(core, zap.AddCaller(), zap.AddCallerSkip(1))] returns a pointer
    to a fresh logger.  [addr] stands for that pointer: two loggers are the
    same instance exactly when they carry the same [addr].  [cores] is the
    argument list of [zapcore.NewTee]. *)
Record Logger : Type := {
  addr : nat;
  cores : list Zapcore.Core;
  addCaller : bool;
  callerSkip : Z
}.

(** the method [Sugar()] of a logger: a sugared wrapper around it *)
Record SugaredLogger : Type := { base : Logger }.

Definition Sugar (l : Logger) : SugaredLogger := {| base := l |}.

(** an argument of type [interface{}] *)
Inductive Any : Type :=
| AnyString (s : string)
| AnyInt (z : Z)
| AnyBool (b : bool)
| AnyPointer (printed : string).

(** what a sugared call passes down: [template] is empty for the
    unformatted variants *)
Record Message : Type := {
  template : string;
  fmtArgs : list Any
}.

End Zap.

(** ** The process: global variables, standard streams, control outcomes *)

(** what the process has written, in order *)
Inductive Event : Type :=
| EvPrintf (text : string)
    (* fmt.Printf on standard output *)
| EvEntry (ws : Zapcore.WriteSyncer) (enc : Zapcore.EncoderConfig)
    (lvl : Zapcore.Level) (msg : Zap.Message).
    (* one record encoded by [enc] and written to [ws] *)

(** The package-level variables [Logger], [Sugar] and [once], the process
    environment read by [os.Getenv], the count of loggers built so far
    (which numbers the allocations of [zap.New]) and the output trace.
    A nil pointer is [None]. *)
Record State : Type := {
  Logger : option Zap.Logger;
  Sugar : option Zap.SugaredLogger;
  once : bool;
  environ : string -> string;
  created : nat;
  trace : list Event
}.

Definition set_Logger (l : option Zap.Logger) (s : State) : State :=
  {| Logger := l; Sugar := Sugar s; once := once s;
     environ := environ s; created := created s; trace := trace s |}.

Definition set_Sugar (g : option Zap.SugaredLogger) (s : State) : State :=
  {| Logger := Logger s; Sugar := g; once := once s;
     environ := environ s; created := created s; trace := trace s |}.

Definition set_once (b : bool) (s : State) : State :=
  {| Logger := Logger s; Sugar := Sugar s; once := b;
     environ := environ s; created := created s; trace := trace s |}.

Definition set_created (n : nat) (s : State) : State :=
  {| Logger := Logger s; Sugar := Sugar s; once := once s;
     environ := environ s; created := n; trace := trace s |}.

Definition add_trace (evs : list Event) (s : State) : State :=
  {| Logger := Logger s; Sugar := Sugar s; once := once s;
     environ := environ s; created := created s; trace := trace s ++ evs |}.

(** the state of a process that has not touched the package yet *)
Definition initial (env : string -> string) : State :=
  {| Logger := None; Sugar := None; once := false;
     environ := env; created := 0%nat; trace := [] |}.

Inductive PanicValue : Type :=
| PanicError (err : string)         (* panic(err) with an [error] *)
| NilPointerDereference.            (* the run-time panic of a nil receiver *)

(** how a call ends: it returns, it panics (the panic unwinds towards the
    caller), or the process exits *)
Inductive Outcome (A : Type) : Type :=
| Returned (a : A) (s : State)
| Panicked (v : PanicValue) (s : State)
| Exited (code : Z) (s : State).

Arguments Returned {A} a s.
Arguments Panicked {A} v s.
Arguments Exited {A} code s.

Definition final {A : Type} (o : Outcome A) : State :=
  match o with
  | Returned _ s => s
  | Panicked _ s => s
  | Exited _ s => s
  end.

Definition M (A : Type) : Type := State -> Outcome A.

Definition ret {A : Type} (a : A) : M A := fun s => Returned a s.

Definition bind {A B : Type} (m : M A) (k : A -> M B) : M B :=
  fun s =>
    match m s with
    | Returned a s' => k a s'
    | Panicked v s' => Panicked v s'
    | Exited c s' => Exited c s'
    end.

Notation "x <- m ;; k" := (bind m (fun x => k))
  (at level 61, m at next level, right associativity).
Notation "m ;;; k" := (bind m (fun _ => k))
  (at level 61, right associativity).

Definition gets {A : Type} (f : State -> A) : M A := fun s => Returned (f s) s.
Definition modify (f : State -> State) : M unit := fun s => Returned tt (f s).
Definition panic {A : Type} (v : PanicValue) : M A := fun s => Panicked v s.
Definition os_Exit {A : Type} (code : Z) : M A := fun s => Exited code s.

(** [fmt.Printf] *)
Definition Printf (text : string) : M unit := modify (add_trace [EvPrintf text]).

(** [os.Getenv] *)
Definition Getenv (key : string) : M string := gets (fun s => environ s key).

(** [zap.New(zapcore.NewTee(cores...), zap.AddCaller(), zap.AddCallerSkip(1))] *)
Definition zap_New (cores : list Zapcore.Core) : M Zap.Logger :=
  fun s =>
    Returned {| Zap.addr := created s; Zap.cores := cores;
                Zap.addCaller := true; Zap.callerSkip := 1 |}
             (set_created (S (created s)) s).

(** the records a logger writes for one entry: one per core whose level
    lets the entry through, in the order of the tee *)
Definition entries (l : Zap.Logger) (lvl : Zapcore.Level) (msg : Zap.Message)
  : list Event :=
  map (fun c => EvEntry (Zapcore.syncer c) (Zapcore.encoder c) lvl msg)
      (filter (fun c => Zapcore.Enabled (Zapcore.enabler c) lvl) (Zap.cores l)).

(** A method call on the global [Sugar].  A nil receiver panics; otherwise
    the entry is written and, at [FatalLevel], the process exits with
    status 1 after the write. *)
Definition Sugar_log (lvl : Zapcore.Level) (msg : Zap.Message) : M unit :=
  g <- gets Sugar ;;
  match g with
  | None => panic NilPointerDereference
  | Some sg =>
      modify (add_trace (entries (Zap.base sg) lvl msg)) ;;;
      match lvl with
      | Zapcore.FatalLevel => os_Exit 1
      | _ => ret tt
      end
  end.

(** [sync.Once.Do]: the body runs when the flag is clear, and the flag is
    set when the body is left *)
Definition once_Do (f : M unit) : M unit :=
  fun s =>
    if once s then Returned tt s
    else
      match f s with
      | Returned _ s' => Returned tt (set_once true s')
      | Panicked v s' => Panicked v (set_once true s')
      | Exited c s' => Exited c s'
      end.

(** a caller that guards a call with
    [defer func() { r = recover() }()] and goes on afterwards *)
Definition with_recover (m : M unit) : M (option PanicValue) :=
  fun s =>
    match m s with
    | Returned _ s' => Returned None s'
    | Panicked v s' => Returned (Some v) s'
    | Exited c s' => Exited c s'
    end.

(** ** What the package takes from its surroundings

    The operating system decides what a path separator is, the Unicode case
    tables decide the upper-casing of a string that is not plain ASCII, and
    [rotatelogs.New] decides whether a pattern and a list of options are
    acceptable ([New_error] is the error it returns, if any). *)
Record Platform : Type := {
  goos : Filepath.GOOS;
  unicode_upper : string -> string;
  New_error : string -> list Rotatelogs.Option -> option string
}.

(** ** package log *)

Definition dateRollingSuffix : string := ".%Y%m%d".
Definition RollingBySize : Z := 0.
Definition RollingByDate : Z := 1.

(** the byte ["\n"] *)
Definition newline : string := String "010"%char EmptyString.

Section Log.

Variable P : Platform.

(** [rotatelogs.New(pattern, options...)]: [(nil, err)] or [(writer, nil)] *)
Definition rotatelogs_New (pattern : string) (options : list Rotatelogs.Option)
  : Rotatelogs.RotateLogs + string :=
  match New_error P pattern options with
  | Some err => inr err
  | None => inl {| Rotatelogs.pattern := pattern; Rotatelogs.options := options |}
  end.

(** [timeEncoder] formats the time as RFC 3339 *)
Definition timeEncoder : Zapcore.TimeEncoder := Zapcore.RFC3339TimeEncoder.

Definition logLv (logLevel : string) : M Zapcore.Level :=
  let upper := Strings.ToUpper (unicode_upper P) logLevel in
  if String.eqb upper "DEBUG" then ret Zapcore.DebugLevel
  else if String.eqb upper "INFO" || String.eqb upper "" then ret Zapcore.InfoLevel
  else if String.eqb upper "WARN" then ret Zapcore.WarnLevel
  else if String.eqb upper "ERROR" then ret Zapcore.ErrorLevel
  else if String.eqb upper "DPANIC" then ret Zapcore.DPanicLevel
  else if String.eqb upper "PANIC" then ret Zapcore.PanicLevel
  else if String.eqb upper "FATAL" then ret Zapcore.FatalLevel
  else
    Printf ("invalid log level " ++ logLevel ++ ", change to INFO" ++ newline) ;;;
    ret Zapcore.InfoLevel.

(** the file name handed to [rotatelogs.New] *)
Definition RotateLogs_filename (filePath : string) : string :=
  let ext := Filepath.Ext (goos P) filePath in
  if (0 <? Strings.len ext)%nat
  then Strings.TrimSuffix filePath ext ++ dateRollingSuffix ++ ext
  else filePath ++ dateRollingSuffix.

(** the options handed to [rotatelogs.New]; [maxBackups] is a [uint] *)
Definition RotateLogs_options (filePath : string) (maxBackups maxAge : Z)
  : list Rotatelogs.Option :=
  let options := [Rotatelogs.WithLinkName filePath;
                  Rotatelogs.WithRotationTime (GoTime.Hour * 24)] in
  if GoInt.to_int maxBackups >? maxAge
  then options ++ [Rotatelogs.WithMaxAge (GoTime.mul (GoTime.Hour * 24) maxAge)]
  else options ++ [Rotatelogs.WithRotationCount maxBackups].

Definition RotateLogs (filePath : string) (maxBackups maxAge : Z)
  : Rotatelogs.RotateLogs + string :=
  rotatelogs_New (RotateLogs_filename filePath)
                 (RotateLogs_options filePath maxBackups maxAge).

(** [logCore] and [devCore] append to the slice behind [cores]; here they
    return the slice they leave there *)
Definition logCore (fileWriterSyncer : Zapcore.WriteSyncer) (level : Zapcore.Level)
  (cores : list Zapcore.Core) : list Zapcore.Core :=
  let fileEncoderConfig :=
    {| Zapcore.preset := Zapcore.ProductionEncoderConfig;
       Zapcore.EncodeTime := timeEncoder;
       Zapcore.EncodeLevel := Zapcore.CapitalLevelEncoder |} in
  let c := Zapcore.NewCore fileEncoderConfig fileWriterSyncer level in
  cores ++ [c].

Definition developmentEncoderConfig : Zapcore.EncoderConfig :=
  {| Zapcore.preset := Zapcore.DevelopmentEncoderConfig;
     Zapcore.EncodeTime := timeEncoder;
     Zapcore.EncodeLevel := Zapcore.CapitalLevelEncoder |}.

Definition devCore (stdout : list bool) (level : Zapcore.Level)
  (cores : list Zapcore.Core) : list Zapcore.Core :=
  if (0 <? List.length stdout)%nat && nth 0 stdout false
  then
    let c := Zapcore.NewCore developmentEncoderConfig Zapcore.Stdout level in
    cores ++ [c]
  else cores.

Definition DateRolling (filename logLevel : string) (maxBackups maxAge : Z)
  (stdout : list bool) : M unit :=
  match RotateLogs filename (GoInt.to_uint maxBackups) maxAge with
  | inr err => panic (PanicError err)
  | inl rotateLogs =>
      level <- logLv logLevel ;;
      let cores := [] in
      let fileWriterSyncer := Zapcore.FileByDate rotateLogs in
      let cores := logCore fileWriterSyncer level cores in
      let cores := devCore stdout level cores in
      l <- zap_New cores ;;
      modify (set_Logger (Some l)) ;;;
      modify (set_Sugar (Some (Zap.Sugar l)))
  end.

Definition SizeRolling (filename logLevel : string) (maxSize maxBackups maxAge : Z)
  (stdout : list bool) : M unit :=
  level <- logLv logLevel ;;
  let cores := [] in
  let fileWriterSyncer :=
    Zapcore.FileBySize
      {| Lumberjack.Filename := filename;
         Lumberjack.MaxSize := maxSize;
         Lumberjack.LocalTime := true;
         Lumberjack.MaxBackups := maxBackups;
         Lumberjack.MaxAge := maxAge;
         Lumberjack.Compress := true |} in
  let cores := logCore fileWriterSyncer level cores in
  let cores := devCore stdout level cores in
  l <- zap_New cores ;;
  modify (set_Logger (Some l)) ;;;
  modify (set_Sugar (Some (Zap.Sugar l))).

(** the [switch] has no default branch *)
Definition Init (filename logLevel : string) (maxSize maxBackups maxAge : Z)
  (rollingBy : Z) (stdout : list bool) : M unit :=
  if rollingBy =? RollingBySize
  then SizeRolling filename logLevel maxSize maxBackups maxAge stdout
  else if rollingBy =? RollingByDate
  then DateRolling filename logLevel maxBackups maxAge stdout
  else ret tt.

(** the function literal given to [once.Do] *)
Definition Default_body : M unit :=
  let logLevel := Zapcore.InfoLevel in
  debugEnabled <- Getenv "DEBUG" ;;
  let logLevel :=
    if (0 <? Strings.len debugEnabled)%nat then Zapcore.DebugLevel else logLevel in
  let core := Zapcore.NewCore developmentEncoderConfig Zapcore.Stdout logLevel in
  l <- zap_New [core] ;;
  modify (set_Logger (Some l)) ;;;
  modify (set_Sugar (Some (Zap.Sugar l))).

Definition Default : M unit := once_Do Default_body.

(** [if Sugar == nil { Default() }] *)
Definition ensure_Sugar : M unit :=
  g <- gets Sugar ;;
  match g with
  | None => Default
  | Some _ => ret tt
  end.

Definition Info (args : list Zap.Any) : M unit :=
  ensure_Sugar ;;;
  Sugar_log Zapcore.InfoLevel {| Zap.template := ""; Zap.fmtArgs := args |}.

Definition Infof (template : string) (args : list Zap.Any) : M unit :=
  ensure_Sugar ;;;
  Sugar_log Zapcore.InfoLevel {| Zap.template := template; Zap.fmtArgs := args |}.

Definition Debug (args : list Zap.Any) : M unit :=
  ensure_Sugar ;;;
  Sugar_log Zapcore.DebugLevel {| Zap.template := ""; Zap.fmtArgs := args |}.

Definition Debugf (template : string) (args : list Zap.Any) : M unit :=
  ensure_Sugar ;;;
  Sugar_log Zapcore.DebugLevel {| Zap.template := template; Zap.fmtArgs := args |}.

Definition Warn (args : list Zap.Any) : M unit :=
  ensure_Sugar ;;;
  Sugar_log Zapcore.WarnLevel {| Zap.template := ""; Zap.fmtArgs := args |}.

Definition Warnf (template : string) (args : list Zap.Any) : M unit :=
  ensure_Sugar ;;;
  Sugar_log Zapcore.WarnLevel {| Zap.template := template; Zap.fmtArgs := args |}.

Definition Error (args : list Zap.Any) : M unit :=
  ensure_Sugar ;;;
  Sugar_log Zapcore.ErrorLevel {| Zap.template := ""; Zap.fmtArgs := args |}.

Definition Errorf (template : string) (args : list Zap.Any) : M unit :=
  ensure_Sugar ;;;
  Sugar_log Zapcore.ErrorLevel {| Zap.template := template; Zap.fmtArgs := args |}.

Definition Fatal (args : list Zap.Any) : M unit :=
  ensure_Sugar ;;;
  Sugar_log Zapcore.FatalLevel {| Zap.template := ""; Zap.fmtArgs := args |}.

Definition Fatalf (template : string) (args : list Zap.Any) : M unit :=
  ensure_Sugar ;;;
  Sugar_log Zapcore.FatalLevel {| Zap.template := template; Zap.fmtArgs := args |}.

End Log.

(** ** The entry points as one family, and programs that use the package *)

Inductive EntryPoint : Type :=
| EInfo | EInfof | EDebug | EDebugf | EWarn | EWarnf
| EError | EErrorf | EFatal | EFatalf.

Definition all_entry_points : list EntryPoint :=
  [EInfo; EInfof; EDebug; EDebugf; EWarn; EWarnf; EError; EErrorf; EFatal; EFatalf].

(** the level named by the entry point *)
Definition entry_level (e : EntryPoint) : Zapcore.Level :=
  match e with
  | EInfo | EInfof => Zapcore.InfoLevel
  | EDebug | EDebugf => Zapcore.DebugLevel
  | EWarn | EWarnf => Zapcore.WarnLevel
  | EError | EErrorf => Zapcore.ErrorLevel
  | EFatal | EFatalf => Zapcore.FatalLevel
  end.

(** the message of a call: only the formatted variants have a template *)
Definition entry_message (e : EntryPoint) (template : string) (args : list Zap.Any)
  : Zap.Message :=
  match e with
  | EInfof | EDebugf | EWarnf | EErrorf | EFatalf =>
      {| Zap.template := template; Zap.fmtArgs := args |}
  | _ => {| Zap.template := ""; Zap.fmtArgs := args |}
  end.

Definition call_entry (e : EntryPoint) (template : string)
  (args : list Zap.Any) : M unit :=
  match e with
  | EInfo => Info args
  | EInfof => Infof template args
  | EDebug => Debug args
  | EDebugf => Debugf template args
  | EWarn => Warn args
  | EWarnf => Warnf template args
  | EError => Error args
  | EErrorf => Errorf template args
  | EFatal => Fatal args
  | EFatalf => Fatalf template args
  end.

(** one step of a client program: a call into the package, or a change of
    the process environment with [os.Setenv] *)
Inductive Call : Type :=
| CallInit (filename logLevel : string) (maxSize maxBackups maxAge rollingBy : Z)
    (stdout : list bool)
| CallDefault
| CallLog (e : EntryPoint) (template : string) (args : list Zap.Any)
| CallSetenv (key value : string).

Definition is_Init (c : Call) : bool :=
  match c with
  | CallInit _ _ _ _ _ _ _ => true
  | _ => false
  end.

Definition Setenv (key value : string) : M unit :=
  modify (fun s =>
    {| Logger := Logger s; Sugar := Sugar s; once := once s;
       environ := fun k => if String.eqb k key then value else environ s k;
       created := created s; trace := trace s |}).

Definition run_call (P : Platform) (c : Call) : M unit :=
  match c with
  | CallInit filename logLevel maxSize maxBackups maxAge rollingBy stdout =>
      Init P filename logLevel maxSize maxBackups maxAge rollingBy stdout
  | CallDefault => Default
  | CallLog e template args => call_entry e template args
  | CallSetenv key value => Setenv key value
  end.

(** a straight-line program; a panic or an exit ends it *)
Fixpoint run (P : Platform) (cs : list Call) : M unit :=
  match cs with
  | [] => ret tt
  | c :: rest => run_call P c ;;; run P rest
  end.

(** the process goes on after a call that returned, and after a call whose
    panic the caller recovered *)
Definition goes_on (o : Outcome unit) (s' : State) : Prop :=
  o = Returned tt s' \/ exists v, o = Panicked v s'.

(** [steps_to P allowed s s']: a process in state [s] can get to [s'] by
    calls that [allowed] admits *)
Inductive steps_to (P : Platform) (allowed : Call -> bool) (s : State)
  : State -> Prop :=
| steps_refl : steps_to P allowed s s
| steps_call (c : Call) (s1 s2 : State) :
    steps_to P allowed s s1 ->
    allowed c = true ->
    goes_on (run_call P c s1) s2 ->
    steps_to P allowed s s2.

Definition any_call : Call -> bool := fun _ => true.
Definition not_Init : Call -> bool := fun c => negb (is_Init c).

(** the states a process can be in *)
Definition reachable (P : Platform) (env : string -> string) (s : State) : Prop :=
  steps_to P any_call (initial env) s.

(** the states of a process that has not called [Init] *)
Definition before_Init (P : Platform) (env : string -> string) (s : State) : Prop :=
  steps_to P not_Init (initial env) s.

(** the state is ACTIVE when the global [Sugar] is not nil *)
Definition ACTIVE (s : State) : Prop := Sugar s <> None.
Definition UNINITIALIZED (s : State) : Prop := Sugar s = None.

(** the logger [Default] builds: one development console core on standard
    output at [level] *)
Definition default_cores (level : Zapcore.Level) : list Zapcore.Core :=
  [Zapcore.NewCore developmentEncoderConfig Zapcore.Stdout level].

(** ** Instances used to run the definitions *)

(** a Unix machine on which [rotatelogs.New] accepts every pattern; the
    examples are plain ASCII, so the Unicode tables are never consulted *)
Definition unix_host : Platform :=
  {| goos := Filepath.unix;
     unicode_upper := fun s => s;
     New_error := fun _ _ => None |}.

(** the same machine with a [rotatelogs.New] that rejects the pattern
    ["%Q.%Y%m%d"], whose first verb is not a strftime verb *)
Definition strict_host : Platform :=
  {| goos := Filepath.unix;
     unicode_upper := fun s => s;
     New_error := fun pattern _ =>
       if String.eqb pattern "%Q.%Y%m%d"
       then Some "invalid strftime pattern"
       else None |}.

(** a Windows machine, otherwise like [unix_host] *)
Definition windows_host : Platform :=
  {| goos := Filepath.windows;
     unicode_upper := fun s => s;
     New_error := fun _ _ => None |}.

(** no variable is set *)
Definition empty_env : string -> string := fun _ => "".

(** only [DEBUG] is set, to ["true"] *)
Definition debug_env : string -> string :=
  fun k => if String.eqb k "DEBUG" then "true" else "".

(** the calls of [main] in test/test_log.go, after its [os.Setenv] *)
Definition test_log_main : list Call :=
  [CallSetenv "DEBUG" "true";
   CallLog EInfof "%s" [Zap.AnyString "hello world"];
   CallLog EErrorf "%v" [Zap.AnyInt 5];
   CallLog EDebugf "%v" [Zap.AnyPointer "&{jackson 28}"];
   CallLog EDebugf "%+v" [Zap.AnyPointer "&{Name:jackson Age:28}"]].

(** a state no run of the package produces, but which a client can make by
    assigning nil to the exported [Sugar] after [Default] has run *)
Definition Sugar_cleared : State :=
  {| Logger := None; Sugar := None; once := true;
     environ := empty_env; created := 1%nat; trace := [] |}.

(** ** Vocabulary of the statements *)

(** a byte [filepath.Ext] steps over: neither a separator nor a dot *)
Definition plain_byte (goos : Filepath.GOOS) (c : ascii) : bool :=
  negb (Filepath.IsPathSeparator goos c) && negb (Ascii.eqb c "."%char).

(** [time.Hour * 24], a constant expression *)
Definition day : GoTime.Duration := GoTime.Hour * 24.

(** the retention options among the options given to [rotatelogs.New] *)
Definition retention (options : list Rotatelogs.Option) : list Rotatelogs.Option :=
  filter Rotatelogs.is_retention options.

(** The retention policy as the specification words it: by age, of
    [maxAgeDays] days, when [maxBackups > maxAgeDays]; otherwise by count, of
    [maxBackups] files. *)
Definition specified_retention (maxBackups maxAgeDays : Z) : Rotatelogs.Option :=
  if maxBackups >? maxAgeDays
  then Rotatelogs.WithMaxAge (maxAgeDays * day)
  else Rotatelogs.WithRotationCount maxBackups.

(** the line [logLv] prints for a level it does not know *)
Definition warning_text (logLevel : string) : string :=
  "invalid log level " ++ logLevel ++ ", change to INFO" ++ newline.

(** the logger [zap.New] returns in state [s] for [cores] *)
Definition new_logger (cores : list Zapcore.Core) (s : State) : Zap.Logger :=
  {| Zap.addr := created s; Zap.cores := cores;
     Zap.addCaller := true; Zap.callerSkip := 1 |}.

(** the state after a new logger for [cores] has been built and assigned to
    [Logger], and its sugared wrapper to [Sugar] *)
Definition install (cores : list Zapcore.Core) (s : State) : State :=
  {| Logger := Some (new_logger cores s);
     Sugar := Some (Zap.Sugar (new_logger cores s));
     once := once s; environ := environ s;
     created := S (created s); trace := trace s |}.

(** how a logging call ends once its record is written *)
Definition finish (e : EntryPoint) (s : State) : Outcome unit :=
  match entry_level e with
  | Zapcore.FatalLevel => Exited 1 s
  | _ => Returned tt s
  end.

(** the level [Default] picks in an environment *)
Definition default_level (env : string -> string) : Zapcore.Level :=
  if String.eqb (env "DEBUG") "" then Zapcore.InfoLevel else Zapcore.DebugLevel.

(** the cores [SizeRolling] and [DateRolling] build around a file sink *)
Definition file_cores (ws : Zapcore.WriteSyncer) (level : Zapcore.Level)
  (stdout : list bool) : list Zapcore.Core :=
  devCore stdout level (logCore ws level []).

(** [Logger] and [Sugar] are nil together, before anything was built, or
    [Sugar] wraps the logger in [Logger], which was built earlier *)
Definition coherent (s : State) : Prop :=
  match Logger s, Sugar s with
  | None, None => once s = false /\ created s = 0%nat
  | Some l, Some g => g = Zap.Sugar l /\ (Zap.addr l < created s)%nat
  | _, _ => False
  end.

(** a call left the global logger alone *)
Definition slot_kept (s s' : State) : Prop :=
  Logger s' = Logger s /\ Sugar s' = Sugar s /\ created s' = created s.

(** a call built a new logger and put it in place of the old one *)
Definition slot_replaced (s s' : State) : Prop :=
  exists l,
    Logger s' = Some l /\ Sugar s' = Some (Zap.Sugar l)
    /\ Zap.addr l = created s /\ created s' = S (created s).

(** the first logger of a process, when [Default] built it *)
Definition default_logger (level : Zapcore.Level) : Zap.Logger :=
  {| Zap.addr := 0; Zap.cores := default_cores level;
     Zap.addCaller := true; Zap.callerSkip := 1 |}.

(** nothing was built yet, or [Default] built the only logger there is *)
Definition lazily_defaulted (s : State) : Prop :=
  (Logger s = None /\ Sugar s = None /\ once s = false /\ created s = 0%nat)
  \/ exists level,
       (level = Zapcore.InfoLevel \/ level = Zapcore.DebugLevel)
       /\ Logger s = Some (default_logger level)
       /\ Sugar s = Some (Zap.Sugar (default_logger level))
       /\ once s = true /\ created s = 1%nat.

(** ** Vocabulary of the further statements *)

(** the encoder configuration [logCore] builds for the file sink *)
Definition fileEncoderConfig : Zapcore.EncoderConfig :=
  {| Zapcore.preset := Zapcore.ProductionEncoderConfig;
     Zapcore.EncodeTime := timeEncoder;
     Zapcore.EncodeLevel := Zapcore.CapitalLevelEncoder |}.

(** the first of the variadic [stdout] arguments, [false] when there is none *)
Definition echo_flag (stdout : list bool) : bool :=
  match stdout with
  | b :: _ => b
  | [] => false
  end.

(** the record a core writes for an entry *)
Definition record_of (lvl : Zapcore.Level) (msg : Zap.Message) (c : Zapcore.Core)
  : Event :=
  EvEntry (Zapcore.syncer c) (Zapcore.encoder c) lvl msg.

(** the records of an entry at [lvl] on a file sink [ws] configured at
    [level], with the console copy when [echo] is set *)
Definition file_records (ws : Zapcore.WriteSyncer) (level : Zapcore.Level)
  (echo : bool) (lvl : Zapcore.Level) (msg : Zap.Message) : list Event :=
  if Zapcore.Enabled level lvl
  then EvEntry ws fileEncoderConfig lvl msg
       :: (if echo
           then [EvEntry Zapcore.Stdout developmentEncoderConfig lvl msg]
           else [])
  else [].

(** calls of [Init] and changes of the environment, nothing else *)
Definition Init_or_Setenv (c : Call) : bool :=
  match c with
  | CallInit _ _ _ _ _ _ _ => true
  | CallSetenv _ _ => true
  | _ => false
  end.

(** two states that differ at most in the process environment *)
Definition same_but_environ (s s' : State) : Prop :=
  Logger s = Logger s' /\ Sugar s = Sugar s' /\ once s = once s'
  /\ created s = created s' /\ trace s = trace s'.

(** two outcomes of the same kind, with the same panic value or exit status,
    whose states differ at most in the environment *)
Definition same_outcome_but_environ (o o' : Outcome unit) : Prop :=
  match o, o' with
  | Returned _ s, Returned _ s' => same_but_environ s s'
  | Panicked v s, Panicked v' s' => v = v' /\ same_but_environ s s'
  | Exited c s, Exited c' s' => c = c' /\ same_but_environ s s'
  | _, _ => False
  end.

(** the global [Sugar], when it is not nil, wraps a logger with at least one
    core; when it is nil, [once] has not fired *)
Definition has_sink (s : State) : Prop :=
  match Sugar s with
  | Some sg => Zap.cores (Zap.base sg) <> []
  | None => once s = false
  end.

(** * Proofs *)

(** ** Facts about strings *)

Lemma strlen_app (a b : string) :
  String.length (a ++ b) = (String.length a + String.length b)%nat.
Proof. induction a as [|c a IH]; simpl; [reflexivity | now rewrite IH]. Qed.

Lemma str_app_empty_r (a : string) : a ++ "" = a.
Proof. induction a as [|c a IH]; simpl; [reflexivity | now rewrite IH]. Qed.

Lemma str_app_assoc (a b c : string) : (a ++ b) ++ c = a ++ b ++ c.
Proof. induction a as [|x a IH]; simpl; [reflexivity | now rewrite IH]. Qed.

Lemma substring_all (b : string) : substring 0 (String.length b) b = b.
Proof. induction b as [|c b IH]; simpl; [reflexivity | now rewrite IH]. Qed.

Lemma substring_none (n : nat) (s : string) : substring n 0 s = "".
Proof.
  revert n; induction s as [|c s IH]; intros [|n]; simpl; auto.
Qed.

Lemma substring_prefix (a b : string) : substring 0 (String.length a) (a ++ b) = a.
Proof.
  induction a as [|c a IH]; simpl.
  - now destruct b.
  - now rewrite IH.
Qed.

Lemma substring_suffix (a b : string) :
  substring (String.length a) (String.length b) (a ++ b) = b.
Proof.
  induction a as [|c a IH]; simpl; [apply substring_all | exact IH].
Qed.

(** a string splits at every index up to its length *)
Lemma split_at (s : string) (i : nat) :
  (i <= String.length s)%nat ->
  s = Strings.slice_to s i ++ Strings.slice_from s i.
Proof.
  unfold Strings.slice_to, Strings.slice_from, Strings.len.
  revert i; induction s as [|c s IH]; intros [|i] Hi; simpl in *; try lia.
  - reflexivity.
  - now rewrite substring_all.
  - rewrite <- IH by lia. reflexivity.
Qed.

Lemma slice_from_app (a b : string) :
  Strings.slice_from (a ++ b) (String.length a) = b.
Proof.
  unfold Strings.slice_from, Strings.len.
  rewrite strlen_app.
  replace (String.length a + String.length b - String.length a)%nat
    with (String.length b) by lia.
  apply substring_suffix.
Qed.

Lemma slice_from_length (s : string) : Strings.slice_from s (Strings.len s) = "".
Proof.
  unfold Strings.slice_from. rewrite Nat.sub_diag. apply substring_none.
Qed.

Lemma HasSuffix_app (a b : string) : Strings.HasSuffix (a ++ b) b = true.
Proof.
  unfold Strings.HasSuffix, Strings.len.
  rewrite strlen_app.
  replace (String.length a + String.length b - String.length b)%nat
    with (String.length a) by lia.
  rewrite slice_from_app, String.eqb_refl, andb_true_r.
  apply Nat.leb_le; lia.
Qed.

Lemma TrimSuffix_app (a b : string) : Strings.TrimSuffix (a ++ b) b = a.
Proof.
  unfold Strings.TrimSuffix. rewrite HasSuffix_app.
  unfold Strings.slice_to, Strings.len. rewrite strlen_app.
  replace (String.length a + String.length b - String.length b)%nat
    with (String.length a) by lia.
  apply substring_prefix.
Qed.

Lemma get_app_l (a b : string) (n : nat) :
  (n < String.length a)%nat -> String.get n (a ++ b) = String.get n a.
Proof. intros H; symmetry; now apply append_correct1. Qed.

Lemma get_app_r (a b : string) (n : nat) :
  String.get (String.length a + n) (a ++ b) = String.get n b.
Proof. rewrite Nat.add_comm; symmetry; apply append_correct2. Qed.

Lemma get_Some_lt (s : string) (n : nat) (c : ascii) :
  String.get n s = Some c -> (n < String.length s)%nat.
Proof.
  revert n; induction s as [|x s IH]; intros [|n] H; simpl in *;
    try discriminate; try lia.
  apply IH in H; lia.
Qed.

Lemma get_lt_Some (s : string) (n : nat) :
  (n < String.length s)%nat -> exists c, String.get n s = Some c.
Proof.
  revert n; induction s as [|x s IH]; intros [|n] H; simpl in *; try lia.
  - now exists x.
  - apply IH; lia.
Qed.

Lemma all_bytes_get (p : ascii -> bool) (s : string) (n : nat) (c : ascii) :
  Strings.all_bytes p s = true -> String.get n s = Some c -> p c = true.
Proof.
  revert n; induction s as [|x s IH]; intros [|n] Hall H; simpl in *;
    try discriminate; apply andb_prop in Hall as [Hx Hs].
  - now injection H as <-.
  - eauto.
Qed.

Section ExtFacts.

Variable goos : Filepath.GOOS.

Lemma dot_not_separator : Filepath.IsPathSeparator goos "."%char = false.
Proof. destruct goos; reflexivity. Qed.

Lemma all_bytes_of_get (p : ascii -> bool) (s : string) :
  (forall k c, String.get k s = Some c -> p c = true) ->
  Strings.all_bytes p s = true.
Proof.
  induction s as [|x s IH]; intros H; simpl; [reflexivity|].
  apply andb_true_intro; split.
  - apply (H 0%nat); reflexivity.
  - apply IH; intros k c Hk; apply (H (S k)); exact Hk.
Qed.

(** the loop steps over plain bytes and stops at the dot in front of them *)
Lemma Ext_loop_dot (stem r : string) (k : nat) :
  Strings.all_bytes (plain_byte goos) r = true ->
  (k <= String.length r)%nat ->
  Filepath.Ext_loop goos (stem ++ "." ++ r) (S (String.length stem + k)) = "." ++ r.
Proof.
  intros Hr. induction k as [|k IH]; intros Hk.
  - rewrite Nat.add_0_r. cbn [Filepath.Ext_loop].
    rewrite <- (Nat.add_0_r (String.length stem)) at 1.
    rewrite get_app_r. cbn [String.get append].
    rewrite dot_not_separator. cbn [Ascii.eqb Bool.eqb].
    apply (slice_from_app stem ("." ++ r)).
  - cbn [Filepath.Ext_loop].
    replace (String.length stem + S k)%nat
      with (String.length stem + S k)%nat by reflexivity.
    rewrite get_app_r. cbn [String.get append].
    destruct (get_lt_Some r k) as [c Hc]; [lia|].
    rewrite Hc.
    pose proof (all_bytes_get _ _ _ _ Hr Hc) as Hp.
    unfold plain_byte in Hp. apply andb_prop in Hp as [Hs Hd].
    apply negb_true_iff in Hs, Hd. rewrite Hs, Hd.
    replace (String.length stem + S k)%nat with (S (String.length stem + k)) by lia.
    apply IH; lia.
Qed.

Lemma Ext_dot (stem r : string) :
  Strings.all_bytes (plain_byte goos) r = true ->
  Filepath.Ext goos (stem ++ "." ++ r) = "." ++ r.
Proof.
  intros Hr. unfold Filepath.Ext, Strings.len.
  rewrite strlen_app. cbn [append String.length].
  replace (String.length stem + S (String.length r))%nat
    with (S (String.length stem + String.length r)) by lia.
  apply Ext_loop_dot; [exact Hr | lia].
Qed.

Lemma slice_from_get (path : string) (i k : nat) (c : ascii) :
  String.get k (Strings.slice_from path i) = Some c ->
  String.get (k + i) path = Some c.
Proof.
  unfold Strings.slice_from. intros H.
  destruct (Nat.lt_ge_cases k (Strings.len path - i)) as [Hlt|Hge].
  - now rewrite <- (substring_correct1 path i _ k Hlt).
  - rewrite (substring_correct2 path i _ k Hge) in H. discriminate.
Qed.

Lemma slice_from_head (path : string) (i : nat) (c : ascii) :
  String.get i path = Some c ->
  exists r, Strings.slice_from path i = String c r.
Proof.
  unfold Strings.slice_from, Strings.len.
  revert i; induction path as [|x path IH]; intros [|i] H; simpl in *;
    try discriminate.
  - injection H as <-. eauto.
  - destruct (IH i H) as [r Hr]. exists r. exact Hr.
Qed.

(** the loop returns nothing, or a dot followed by plain bytes *)
Lemma Ext_loop_cases (path : string) (n : nat) :
  (n <= String.length path)%nat ->
  (forall j c, (n <= j)%nat -> String.get j path = Some c -> plain_byte goos c = true) ->
  Filepath.Ext_loop goos path n = ""
  \/ exists stem r,
       Strings.all_bytes (plain_byte goos) r = true
       /\ path = stem ++ "." ++ r
       /\ Filepath.Ext_loop goos path n = "." ++ r.
Proof.
  induction n as [|i IH]; intros Hn Hinv; cbn [Filepath.Ext_loop].
  - now left.
  - destruct (String.get i path) as [c|] eqn:Hc; [|now left].
    destruct (Filepath.IsPathSeparator goos c) eqn:Hs; [now left|].
    destruct (Ascii.eqb c ".") eqn:Hd.
    + right. apply Ascii.eqb_eq in Hd; subst c.
      destruct (slice_from_head path i _ Hc) as [r Hr].
      exists (Strings.slice_to path i), r. repeat split.
      * apply all_bytes_of_get. intros k c Hk.
        apply (Hinv (S k + i)%nat); [lia|].
        apply slice_from_get. rewrite Hr. exact Hk.
      * cbn [append]. rewrite <- Hr. apply split_at; lia.
      * exact Hr.
    + apply IH; [lia|].
      intros j c' Hj Hc'.
      destruct (Nat.eq_dec j i) as [->|Hne].
      * rewrite Hc in Hc'. injection Hc' as <-.
        unfold plain_byte. now rewrite Hs, Hd.
      * apply (Hinv j); [lia | exact Hc'].
Qed.

Lemma Ext_cases (path : string) :
  Filepath.Ext goos path = ""
  \/ exists stem r,
       Strings.all_bytes (plain_byte goos) r = true
       /\ path = stem ++ "." ++ r
       /\ Filepath.Ext goos path = "." ++ r.
Proof.
  apply Ext_loop_cases; [reflexivity|].
  intros j c Hj Hc. apply get_Some_lt in Hc. unfold Strings.len in *. lia.
Qed.

End ExtFacts.

Lemma add_trace_nil (s : State) : add_trace [] s = s.
Proof. unfold add_trace. rewrite app_nil_r. now destruct s. Qed.


Section LevelParsing.

Variable P : Platform.


Ltac split_switch :=
  repeat match goal with
  | |- context [String.eqb ?a ?b] => destruct (String.eqb_spec a b)
  end.

Lemma ToUpper_empty : Strings.ToUpper (unicode_upper P) "" = "".
Proof. reflexivity. Qed.

Lemma logLv_returns (logLevel : string) (s : State) :
  exists level warning,
    logLv P logLevel s = Returned level (add_trace warning s)
    /\ (warning = [] \/
        warning = [EvPrintf (warning_text logLevel)]).
Proof.
  unfold logLv. 
  assert (Hnil : forall l : Zapcore.Level, Returned l s = Returned l (add_trace [] s)).
  { intros l. now rewrite add_trace_nil. }
  split_switch; cbn [orb];
    try (eexists; exists []; split; [apply Hnil | now left]).
  eexists; eexists; split; [reflexivity | now right].
Qed.

Lemma logLv_same_upper (a b : string) (s s' sa sb : State) (la lb : Zapcore.Level) :
  Strings.ToUpper (unicode_upper P) a = Strings.ToUpper (unicode_upper P) b ->
  logLv P a s = Returned la sa ->
  logLv P b s' = Returned lb sb ->
  la = lb.
Proof.
  unfold logLv. intros ->.
  split_switch; cbn [orb]; unfold bind, ret, Printf, modify;
    intros [= <- _] [= <- _]; reflexivity.
Qed.

Lemma CapitalString_inj (l l' : Zapcore.Level) :
  Zapcore.CapitalString l = Zapcore.CapitalString l' -> l = l'.
Proof. destruct l, l'; simpl; intros H; try reflexivity; discriminate H. Qed.

(** the three ways through the [switch] *)
Lemma logLv_cases (logLevel : string) (s : State) :
  (exists l,
      Strings.ToUpper (unicode_upper P) logLevel = Zapcore.CapitalString l
      /\ logLv P logLevel s = Returned l s)
  \/ (Strings.ToUpper (unicode_upper P) logLevel = ""
      /\ logLv P logLevel s = Returned Zapcore.InfoLevel s)
  \/ ((forall l, Strings.ToUpper (unicode_upper P) logLevel <> Zapcore.CapitalString l)
      /\ Strings.ToUpper (unicode_upper P) logLevel <> ""
      /\ logLv P logLevel s =
           Returned Zapcore.InfoLevel (add_trace [EvPrintf (warning_text logLevel)] s)).
Proof.
  unfold logLv.
  destruct (String.eqb_spec (Strings.ToUpper (unicode_upper P) logLevel) "DEBUG").
  { left; exists Zapcore.DebugLevel; split; [assumption | reflexivity]. }
  destruct (String.eqb_spec (Strings.ToUpper (unicode_upper P) logLevel) "INFO").
  { left; exists Zapcore.InfoLevel; split; [assumption | reflexivity]. }
  destruct (String.eqb_spec (Strings.ToUpper (unicode_upper P) logLevel) "").
  { right; left; split; [assumption | reflexivity]. }
  cbn [orb].
  destruct (String.eqb_spec (Strings.ToUpper (unicode_upper P) logLevel) "WARN").
  { left; exists Zapcore.WarnLevel; split; [assumption | reflexivity]. }
  destruct (String.eqb_spec (Strings.ToUpper (unicode_upper P) logLevel) "ERROR").
  { left; exists Zapcore.ErrorLevel; split; [assumption | reflexivity]. }
  destruct (String.eqb_spec (Strings.ToUpper (unicode_upper P) logLevel) "DPANIC").
  { left; exists Zapcore.DPanicLevel; split; [assumption | reflexivity]. }
  destruct (String.eqb_spec (Strings.ToUpper (unicode_upper P) logLevel) "PANIC").
  { left; exists Zapcore.PanicLevel; split; [assumption | reflexivity]. }
  destruct (String.eqb_spec (Strings.ToUpper (unicode_upper P) logLevel) "FATAL").
  { left; exists Zapcore.FatalLevel; split; [assumption | reflexivity]. }
  right; right. split; [|split; [assumption | reflexivity]].
  intros l; destruct l; simpl; assumption.
Qed.

(** C2.  [logLv] returns for every string, with one of the seven levels.
    The level is the one whose capital name is the upper-casing of the
    string; a string whose upper-casing is none of the seven names, and the
    empty string, give [InfoLevel].  A warning line is printed exactly when
    the upper-casing is neither one of the seven names nor empty, and nothing
    else is printed.  Two strings with the same upper-casing give the same
    level, so the case of the letters does not matter. *)
Theorem logLv_total_case_insensitive (logLevel : string) (s : State) :
  exists level warning,
    logLv P logLevel s = Returned level (add_trace warning s)
    /\ In level Zapcore.all_levels
    /\ (forall l, Strings.ToUpper (unicode_upper P) logLevel = Zapcore.CapitalString l ->
        level = l)
    /\ ((forall l, Strings.ToUpper (unicode_upper P) logLevel <> Zapcore.CapitalString l) ->
        level = Zapcore.InfoLevel)
    /\ (logLevel = "" -> level = Zapcore.InfoLevel /\ warning = [])
    /\ ((exists l, Strings.ToUpper (unicode_upper P) logLevel = Zapcore.CapitalString l)
        \/ Strings.ToUpper (unicode_upper P) logLevel = "" -> warning = [])
    /\ ((forall l, Strings.ToUpper (unicode_upper P) logLevel <> Zapcore.CapitalString l)
        /\ Strings.ToUpper (unicode_upper P) logLevel <> "" ->
        warning = [EvPrintf (warning_text logLevel)])
    /\ (forall other s' level' s'',
          Strings.ToUpper (unicode_upper P) other
          = Strings.ToUpper (unicode_upper P) logLevel ->
          logLv P other s' = Returned level' s'' -> level' = level).
Proof.
  assert (Hempty : logLevel = "" -> Strings.ToUpper (unicode_upper P) logLevel = "").
  { intros ->. reflexivity. }
  destruct (logLv_cases logLevel s) as [[l0 [Hup Hrun]]|[[Hup Hrun]|[Hno [Hne Hrun]]]].
  - exists l0, []. rewrite add_trace_nil.
    split; [exact Hrun|].
    split; [destruct l0; simpl; tauto|].
    split; [intros l Hl; apply CapitalString_inj; congruence|].
    split; [intros H; destruct (H l0 Hup)|].
    split.
    { intros H; apply Hempty in H. rewrite H in Hup. destruct l0; discriminate Hup. }
    split; [reflexivity|].
    split; [intros [H _]; destruct (H l0 Hup)|].
    intros other s' level' s'' Hsame Hother.
    exact (logLv_same_upper _ _ _ _ _ _ _ _ Hsame Hother Hrun).
  - exists Zapcore.InfoLevel, []. rewrite add_trace_nil.
    split; [exact Hrun|].
    split; [simpl; tauto|].
    split; [intros l Hl; rewrite Hup in Hl; destruct l; discriminate Hl|].
    split; [reflexivity|].
    split; [intros _; split; reflexivity|].
    split; [reflexivity|].
    split; [intros [_ H]; destruct (H Hup)|].
    intros other s' level' s'' Hsame Hother.
    exact (logLv_same_upper _ _ _ _ _ _ _ _ Hsame Hother Hrun).
  - exists Zapcore.InfoLevel, [EvPrintf (warning_text logLevel)].
    split; [exact Hrun|].
    split; [simpl; tauto|].
    split; [intros l Hl; destruct (Hno l Hl)|].
    split; [reflexivity|].
    split; [intros H; destruct (Hne (Hempty H))|].
    split; [intros [[l Hl]|H]; [destruct (Hno l Hl) | destruct (Hne H)]|].
    split; [reflexivity|].
    intros other s' level' s'' Hsame Hother.
    exact (logLv_same_upper _ _ _ _ _ _ _ _ Hsame Hother Hrun).
Qed.

(** an ASCII spelling of a level name, in any mix of cases, parses to that
    level without a warning *)
Lemma logLv_ascii_spelling (logLevel : string) (l : Zapcore.Level) (s : State) :
  Strings.all_bytes Strings.is_ascii_byte logLevel = true ->
  Strings.map_bytes Strings.upper_byte logLevel = Zapcore.CapitalString l ->
  logLv P logLevel s = Returned l s.
Proof.
  intros Hascii Hup.
  assert (Hu : Strings.ToUpper (unicode_upper P) logLevel = Zapcore.CapitalString l).
  { unfold Strings.ToUpper. now rewrite Hascii. }
  destruct (logLv_cases logLevel s) as [[l0 [H0 Hrun]]|[[H0 Hrun]|[Hno _]]].
  - rewrite Hrun. f_equal. apply CapitalString_inj. congruence.
  - rewrite Hu in H0. destruct l; discriminate H0.
  - destruct (Hno l Hu).
Qed.

End LevelParsing.

Example logLv_spellings :
  logLv unix_host "debug" (initial empty_env)
  = Returned Zapcore.DebugLevel (initial empty_env)
  /\ logLv unix_host "Warn" (initial empty_env)
     = Returned Zapcore.WarnLevel (initial empty_env)
  /\ logLv unix_host "dPaNiC" (initial empty_env)
     = Returned Zapcore.DPanicLevel (initial empty_env)
  /\ logLv unix_host "" (initial empty_env)
     = Returned Zapcore.InfoLevel (initial empty_env)
  /\ logLv unix_host "verbose" (initial empty_env)
     = Returned Zapcore.InfoLevel
         (add_trace [EvPrintf (warning_text "verbose")] (initial empty_env))
  /\ logLv unix_host " info" (initial empty_env)
     = Returned Zapcore.InfoLevel
         (add_trace [EvPrintf (warning_text " info")] (initial empty_env)).
Proof. repeat split. Qed.

Section Rotation.

Variable P : Platform.

Lemma RotateLogs_filename_split (stem ext : string) :
  Filepath.Ext (goos P) (stem ++ ext) = ext ->
  RotateLogs_filename P (stem ++ ext) = stem ++ dateRollingSuffix ++ ext.
Proof.
  intros He. unfold RotateLogs_filename. rewrite He.
  destruct ext as [|c ext]; cbn [Strings.len String.length Nat.ltb Nat.leb].
  - now rewrite str_app_empty_r.
  - now rewrite TrimSuffix_app.
Qed.

Lemma Ext_is_suffix (path : string) :
  exists stem, path = stem ++ Filepath.Ext (goos P) path.
Proof.
  destruct (Ext_cases (goos P) path) as [->|[stem [r [_ [Hp ->]]]]].
  - exists path. now rewrite str_app_empty_r.
  - now exists stem.
Qed.

(** C3.  The file name [RotateLogs] hands to [rotatelogs.New] is the path with
    [".%Y%m%d"] put in front of its extension, the extension being what
    [filepath.Ext] returns: the path is [stem ++ ext] and the pattern is
    [stem ++ ".%Y%m%d" ++ ext].  A path that ends in a dot followed by bytes
    that are neither dots nor separators has that dot and those bytes for
    extension; any other path has none, and the suffix goes at its end.
    ["app.log"] gives ["app.%Y%m%d.log"] and ["app"] gives ["app.%Y%m%d"]. *)
Theorem RotateLogs_date_suffix_pattern (filePath : string) (maxBackups maxAge : Z) :
  (exists stem,
      filePath = stem ++ Filepath.Ext (goos P) filePath
      /\ RotateLogs_filename P filePath
         = stem ++ ".%Y%m%d" ++ Filepath.Ext (goos P) filePath)
  /\ (Filepath.Ext (goos P) filePath = "" ->
      RotateLogs_filename P filePath = filePath ++ ".%Y%m%d")
  /\ (forall stem r,
        Strings.all_bytes (plain_byte (goos P)) r = true ->
        RotateLogs_filename P (stem ++ "." ++ r) = stem ++ ".%Y%m%d" ++ "." ++ r)
  /\ ((forall stem r,
         Strings.all_bytes (plain_byte (goos P)) r = true ->
         filePath <> stem ++ "." ++ r) ->
      RotateLogs_filename P filePath = filePath ++ ".%Y%m%d")
  /\ (forall w,
        RotateLogs P filePath maxBackups maxAge = inl w ->
        Rotatelogs.pattern w = RotateLogs_filename P filePath)
  /\ RotateLogs_filename P "app.log" = "app.%Y%m%d.log"
  /\ RotateLogs_filename P "app" = "app.%Y%m%d".
Proof.
  assert (Hnone : Filepath.Ext (goos P) filePath = "" ->
                  RotateLogs_filename P filePath = filePath ++ ".%Y%m%d").
  { intros He. unfold RotateLogs_filename. now rewrite He. }
  split.
  { destruct (Ext_is_suffix filePath) as [stem Hs]. exists stem. split; [exact Hs|].
    rewrite Hs at 1. apply RotateLogs_filename_split. now rewrite <- Hs. }
  split; [exact Hnone|].
  split.
  { intros stem r Hr. apply (RotateLogs_filename_split stem ("." ++ r)).
    now apply Ext_dot. }
  split.
  { intros Hno. apply Hnone.
    destruct (Ext_cases (goos P) filePath) as [He|[stem [r [Hr [Hp _]]]]];
      [exact He | destruct (Hno stem r Hr Hp)]. }
  split.
  { unfold RotateLogs, rotatelogs_New. intros w.
    destruct (New_error P _ _); [discriminate|]. now intros [= <-]. }
  unfold RotateLogs_filename; destruct (goos P); split; reflexivity.
Qed.

Lemma to_int_to_uint (z : Z) : GoInt.is_int z -> GoInt.to_int (GoInt.to_uint z) = z.
Proof.
  unfold GoInt.is_int, GoInt.to_int, GoInt.to_uint, GoInt.modulus, GoInt.half_modulus.
  intros H.
  rewrite Zplus_mod_idemp_l.
  rewrite Z.mod_small; lia.
Qed.

Lemma to_uint_nonneg (z : Z) : GoInt.is_int z -> 0 <= z -> GoInt.to_uint z = z.
Proof.
  unfold GoInt.is_int, GoInt.to_uint, GoInt.modulus, GoInt.half_modulus.
  intros H H0. apply Z.mod_small; lia.
Qed.

Lemma days_exact (n : Z) : -106751 <= n <= 106751 -> GoTime.mul day n = n * day.
Proof.
  unfold GoTime.mul, GoInt.to_int, GoInt.modulus, GoInt.half_modulus, day,
    GoTime.Hour, GoTime.Minute, GoTime.Second, GoTime.Nanosecond.
  intros H. rewrite Z.mod_small; lia.
Qed.

(** C1, as amended.  For every [int] [maxBackups] and every [maxAge],
    [DateRolling] hands exactly one retention option to [rotatelogs.New]:
    [WithMaxAge] when [maxBackups > maxAge], [WithRotationCount] otherwise.
    The age is the 64-bit product of a day and [maxAge], which is [maxAge]
    days as long as [maxAge] is within 106751 days either way; the count is
    [uint(maxBackups)], which is [maxBackups] as long as it is not negative.
    Within those bounds the option is the one the specification words. *)
Theorem DateRolling_retention_policy (filePath : string) (maxBackups maxAge : Z)
  (Hint : GoInt.is_int maxBackups) :
  retention (RotateLogs_options filePath (GoInt.to_uint maxBackups) maxAge)
  = [if maxBackups >? maxAge
     then Rotatelogs.WithMaxAge (GoTime.mul day maxAge)
     else Rotatelogs.WithRotationCount (GoInt.to_uint maxBackups)]
  /\ (-106751 <= maxAge <= 106751 -> GoTime.mul day maxAge = maxAge * day)
  /\ (0 <= maxBackups -> GoInt.to_uint maxBackups = maxBackups)
  /\ (0 <= maxBackups -> -106751 <= maxAge <= 106751 ->
      retention (RotateLogs_options filePath (GoInt.to_uint maxBackups) maxAge)
      = [specified_retention maxBackups maxAge])
  /\ (forall w,
        RotateLogs P filePath (GoInt.to_uint maxBackups) maxAge = inl w ->
        Rotatelogs.options w
        = RotateLogs_options filePath (GoInt.to_uint maxBackups) maxAge).
Proof.
  assert (H1 : retention (RotateLogs_options filePath (GoInt.to_uint maxBackups) maxAge)
  = [if maxBackups >? maxAge
     then Rotatelogs.WithMaxAge (GoTime.mul day maxAge)
     else Rotatelogs.WithRotationCount (GoInt.to_uint maxBackups)]).
  { unfold RotateLogs_options, retention. rewrite (to_int_to_uint _ Hint).
    destruct (maxBackups >? maxAge); reflexivity. }
  split; [exact H1|].
  split; [apply days_exact|].
  split; [now apply to_uint_nonneg|].
  split.
  { intros Hb Ha. rewrite H1. unfold specified_retention.
    rewrite (days_exact _ Ha), (to_uint_nonneg _ Hint Hb). reflexivity. }
  unfold RotateLogs, rotatelogs_New. intros w.
  destruct (New_error P _ _); [discriminate|]. now intros [= <-].
Qed.

End Rotation.

Example RotateLogs_filename_samples :
  RotateLogs_filename unix_host "logs/app.log" = "logs/app.%Y%m%d.log"
  /\ RotateLogs_filename unix_host "archive.tar.gz" = "archive.tar.%Y%m%d.gz"
  /\ RotateLogs_filename unix_host "logs.d/app" = "logs.d/app.%Y%m%d"
  /\ RotateLogs_filename unix_host "app." = "app.%Y%m%d."
  /\ RotateLogs_filename unix_host ".hidden" = ".%Y%m%d.hidden"
  /\ RotateLogs_filename unix_host "" = ".%Y%m%d"
  /\ RotateLogs_filename unix_host "logs.d\app" = "logs.%Y%m%d.d\app"
  /\ RotateLogs_filename windows_host "logs.d\app" = "logs.d\app.%Y%m%d".
Proof. repeat split. Qed.

Example RotateLogs_options_samples :
  RotateLogs_options "app.log" (GoInt.to_uint 10) 3
  = [Rotatelogs.WithLinkName "app.log"; Rotatelogs.WithRotationTime day;
     Rotatelogs.WithMaxAge (3 * day)]
  /\ RotateLogs_options "app.log" (GoInt.to_uint 3) 10
     = [Rotatelogs.WithLinkName "app.log"; Rotatelogs.WithRotationTime day;
        Rotatelogs.WithRotationCount 3]
  /\ RotateLogs_options "app.log" (GoInt.to_uint 5) 5
     = [Rotatelogs.WithLinkName "app.log"; Rotatelogs.WithRotationTime day;
        Rotatelogs.WithRotationCount 5]
  /\ RotateLogs_options "app.log" (GoInt.to_uint (-1)) 0
     = [Rotatelogs.WithLinkName "app.log"; Rotatelogs.WithRotationTime day;
        Rotatelogs.WithRotationCount 18446744073709551615].
Proof. repeat split. Qed.

(** the two settings of the specification: 10 backups against 3 days keeps
    by age, 3 backups against 10 days keeps by count *)
Lemma DateRolling_retention_policy_witness :
  GoInt.is_int 10
  /\ retention (RotateLogs_options "app.log" (GoInt.to_uint 10) 3)
     = [Rotatelogs.WithMaxAge (3 * day)]
  /\ retention (RotateLogs_options "app.log" (GoInt.to_uint 3) 10)
     = [Rotatelogs.WithRotationCount 3].
Proof.
  assert (H10 : GoInt.is_int 10) by (unfold GoInt.is_int, GoInt.half_modulus; lia).
  assert (H3 : GoInt.is_int 3) by (unfold GoInt.is_int, GoInt.half_modulus; lia).
  split; [exact H10|]. split.
  - destruct (DateRolling_retention_policy unix_host "app.log" 10 3 H10)
      as [_ [_ [_ [H _]]]].
    apply H; lia.
  - destruct (DateRolling_retention_policy unix_host "app.log" 3 10 H3)
      as [_ [_ [_ [H _]]]].
    apply H; lia.
Defined.

(** C1 fails as stated at [maxBackups = 106753], [maxAge = 106752]: retention
    is by age, but the age handed over is the wrapped product, a negative
    duration, and not 106752 days. *)
Lemma retention_age_wraps_around :
  GoInt.is_int 106753 /\ GoInt.is_int 106752
  /\ retention (RotateLogs_options "app.log" (GoInt.to_uint 106753) 106752)
     = [Rotatelogs.WithMaxAge (-9223371273709551616)]
  /\ specified_retention 106753 106752 = Rotatelogs.WithMaxAge 9223372800000000000
  /\ retention (RotateLogs_options "app.log" (GoInt.to_uint 106753) 106752)
     <> [specified_retention 106753 106752].
Proof.
  unfold GoInt.is_int, GoInt.half_modulus.
  repeat split; try lia; try reflexivity.
  vm_compute. discriminate.
Qed.

(** ** What each operation does to the process state *)

Lemma install_run (cores : list Zapcore.Core) (s : State) :
  (l <- zap_New cores ;;
   modify (set_Logger (Some l)) ;;;
   modify (set_Sugar (Some (Zap.Sugar l)))) s
  = Returned tt (install cores s).
Proof. reflexivity. Qed.

Lemma strlen_pos (x : string) :
  (0 <? Strings.len x)%nat = negb (String.eqb x "").
Proof. now destruct x. Qed.

Lemma Default_body_run (s : State) :
  Default_body s
  = Returned tt (install (default_cores (default_level (environ s))) s).
Proof.
  unfold Default_body, Getenv, gets, bind, default_level. cbv beta iota.
  rewrite strlen_pos.
  destruct (String.eqb (environ s "DEBUG") ""); reflexivity.
Qed.

Lemma Default_run (s : State) :
  Default s
  = Returned tt
      (if once s then s
       else set_once true (install (default_cores (default_level (environ s))) s)).
Proof.
  unfold Default, once_Do. rewrite Default_body_run.
  destruct (once s); reflexivity.
Qed.

Section Operations.

Variable P : Platform.

Lemma SizeRolling_run (filename logLevel : string) (maxSize maxBackups maxAge : Z)
  (stdout : list bool) (s : State) :
  exists level warning,
    logLv P logLevel s = Returned level (add_trace warning s)
    /\ SizeRolling P filename logLevel maxSize maxBackups maxAge stdout s
       = Returned tt
           (install
              (file_cores
                 (Zapcore.FileBySize
                    {| Lumberjack.Filename := filename;
                       Lumberjack.MaxSize := maxSize;
                       Lumberjack.LocalTime := true;
                       Lumberjack.MaxBackups := maxBackups;
                       Lumberjack.MaxAge := maxAge;
                       Lumberjack.Compress := true |})
                 level stdout)
              (add_trace warning s)).
Proof.
  destruct (logLv_returns P logLevel s) as [level [warning [Hrun _]]].
  exists level, warning. split; [exact Hrun|].
  unfold SizeRolling, bind at 1. rewrite Hrun. reflexivity.
Qed.

Lemma DateRolling_run (filename logLevel : string) (maxBackups maxAge : Z)
  (stdout : list bool) (s : State) :
  match RotateLogs P filename (GoInt.to_uint maxBackups) maxAge with
  | inr err =>
      DateRolling P filename logLevel maxBackups maxAge stdout s
      = Panicked (PanicError err) s
  | inl w =>
      exists level warning,
        logLv P logLevel s = Returned level (add_trace warning s)
        /\ DateRolling P filename logLevel maxBackups maxAge stdout s
           = Returned tt
               (install (file_cores (Zapcore.FileByDate w) level stdout)
                        (add_trace warning s))
  end.
Proof.
  unfold DateRolling.
  destruct (RotateLogs P filename (GoInt.to_uint maxBackups) maxAge) as [w|err];
    [|reflexivity].
  destruct (logLv_returns P logLevel s) as [level [warning [Hrun _]]].
  exists level, warning. split; [exact Hrun|].
  unfold bind at 1. rewrite Hrun. reflexivity.
Qed.

(** the three ways [Init] can end *)
Lemma Init_cases (filename logLevel : string) (maxSize maxBackups maxAge rollingBy : Z)
  (stdout : list bool) (s : State) :
  Init P filename logLevel maxSize maxBackups maxAge rollingBy stdout s = Returned tt s
  \/ (exists err,
        Init P filename logLevel maxSize maxBackups maxAge rollingBy stdout s
        = Panicked (PanicError err) s)
  \/ (exists cores warning,
        Init P filename logLevel maxSize maxBackups maxAge rollingBy stdout s
        = Returned tt (install cores (add_trace warning s))).
Proof.
  unfold Init.
  destruct (rollingBy =? RollingBySize).
  - destruct (SizeRolling_run filename logLevel maxSize maxBackups maxAge stdout s)
      as [level [warning [_ H]]].
    right; right. eauto.
  - destruct (rollingBy =? RollingByDate); [|now left].
    pose proof (DateRolling_run filename logLevel maxBackups maxAge stdout s) as H.
    destruct (RotateLogs P filename (GoInt.to_uint maxBackups) maxAge) as [w|err].
    + destruct H as [level [warning [_ H]]]. right; right. eauto.
    + right; left. eauto.
Qed.

End Operations.

Lemma ensure_Sugar_run (s : State) :
  ensure_Sugar s
  = match Sugar s with
    | Some _ => Returned tt s
    | None => Default s
    end.
Proof. unfold ensure_Sugar, bind, gets. now destruct (Sugar s). Qed.

Lemma Sugar_log_run (lvl : Zapcore.Level) (msg : Zap.Message) (s : State) :
  Sugar_log lvl msg s
  = match Sugar s with
    | None => Panicked NilPointerDereference s
    | Some sg =>
        match lvl with
        | Zapcore.FatalLevel => Exited 1 (add_trace (entries (Zap.base sg) lvl msg) s)
        | _ => Returned tt (add_trace (entries (Zap.base sg) lvl msg) s)
        end
    end.
Proof.
  unfold Sugar_log, bind, gets. destruct (Sugar s); [|reflexivity].
  destruct lvl; reflexivity.
Qed.

(** every entry point is the nil check followed by the sugared call *)
Lemma call_entry_unfold (e : EntryPoint) (template : string) (args : list Zap.Any) :
  call_entry e template args
  = (ensure_Sugar ;;; Sugar_log (entry_level e) (entry_message e template args)).
Proof. destruct e; reflexivity. Qed.

(** a logging call in an ACTIVE state *)
Lemma call_entry_active (e : EntryPoint) (template : string) (args : list Zap.Any)
  (s : State) (sg : Zap.SugaredLogger) :
  Sugar s = Some sg ->
  call_entry e template args s
  = finish e (add_trace (entries (Zap.base sg) (entry_level e)
                                 (entry_message e template args)) s).
Proof.
  intros Hs. rewrite call_entry_unfold. unfold bind.
  rewrite ensure_Sugar_run, Hs, Sugar_log_run, Hs.
  unfold finish. destruct e; reflexivity.
Qed.

(** a logging call in an UNINITIALIZED state whose [once] has not fired *)
Lemma call_entry_lazy (e : EntryPoint) (template : string) (args : list Zap.Any)
  (s : State) :
  Sugar s = None -> once s = false ->
  call_entry e template args s
  = finish e
      (add_trace
         (entries (new_logger (default_cores (default_level (environ s))) s)
                  (entry_level e) (entry_message e template args))
         (set_once true (install (default_cores (default_level (environ s))) s))).
Proof.
  intros Hs Ho. rewrite call_entry_unfold. unfold bind.
  rewrite ensure_Sugar_run, Hs, Default_run, Ho, Sugar_log_run.
  unfold finish. destruct e; reflexivity.
Qed.

(** the nil receiver: [Sugar] is nil although [once] has fired *)
Lemma call_entry_nil (e : EntryPoint) (template : string) (args : list Zap.Any)
  (s : State) :
  Sugar s = None -> once s = true ->
  call_entry e template args s = Panicked NilPointerDereference s.
Proof.
  intros Hs Ho. rewrite call_entry_unfold. unfold bind.
  rewrite ensure_Sugar_run, Hs, Default_run, Ho, Sugar_log_run, Hs.
  reflexivity.
Qed.

(** ** Invariants of the global state *)

Lemma goes_on_final (o : Outcome unit) (s' : State) : goes_on o s' -> s' = final o.
Proof. intros [->|[v ->]]; reflexivity. Qed.

Lemma default_level_cases (env : string -> string) :
  default_level env = Zapcore.InfoLevel \/ default_level env = Zapcore.DebugLevel.
Proof. unfold default_level. destruct (String.eqb _ _); auto. Qed.

Section Invariants.

Variable P : Platform.

(** what any call leaves behind, by cases on the call *)
Lemma run_call_final (c : Call) (s : State) :
  final (run_call P c s) = s
  \/ (exists cores warning, final (run_call P c s) = install cores (add_trace warning s))
  \/ (once s = false
      /\ exists evs,
           final (run_call P c s)
           = add_trace evs
               (set_once true
                  (install (default_cores (default_level (environ s))) s)))
  \/ (exists sg evs, Sugar s = Some sg /\ final (run_call P c s) = add_trace evs s)
  \/ (exists key value, final (run_call P c s) = final (Setenv key value s)).
Proof.
  destruct c as [f lv ms mb ma by_ so| |e t a|k v]; cbn [run_call].
  - destruct (Init_cases P f lv ms mb ma by_ so s)
      as [H|[[err H]|[cores [w H]]]]; rewrite H; cbn [final]; eauto.
  - rewrite Default_run. cbn [final].
    destruct (once s) eqn:Ho; [now left|].
    right; right; left. split; [reflexivity|]. exists []. now rewrite add_trace_nil.
  - destruct (Sugar s) as [sg|] eqn:Hs.
    + rewrite (call_entry_active e t a s sg Hs).
      right; right; right; left. exists sg.
      exists (entries (Zap.base sg) (entry_level e) (entry_message e t a)).
      split; [reflexivity|].
      unfold finish. destruct (entry_level e); reflexivity.
    + destruct (once s) eqn:Ho.
      * rewrite (call_entry_nil e t a s Hs Ho). now left.
      * rewrite (call_entry_lazy e t a s Hs Ho).
        right; right; left. split; [reflexivity|].
        exists (entries (new_logger (default_cores (default_level (environ s))) s)
                        (entry_level e) (entry_message e t a)).
        unfold finish. destruct (entry_level e); reflexivity.
  - right; right; right; right. eauto.
Qed.

Lemma coherent_step (c : Call) (s : State) :
  coherent s -> coherent (final (run_call P c s)).
Proof.
  intros Hc.
  destruct (run_call_final c s)
    as [->|[[cores [w ->]]|[[Ho [evs ->]]|[[sg [evs [Hs ->]]]|[k [v ->]]]]]].
  - exact Hc.
  - unfold coherent; cbn. split; [reflexivity | lia].
  - unfold coherent; cbn. split; [reflexivity | lia].
  - exact Hc.
  - exact Hc.
Qed.

Lemma ACTIVE_step (c : Call) (s : State) :
  ACTIVE s -> ACTIVE (final (run_call P c s)).
Proof.
  unfold ACTIVE. intros Ha.
  destruct (run_call_final c s)
    as [->|[[cores [w ->]]|[[Ho [evs ->]]|[[sg [evs [Hs ->]]]|[k [v ->]]]]]];
    cbn; try exact Ha; discriminate.
Qed.

Lemma once_step (c : Call) (s : State) :
  once s = true -> once (final (run_call P c s)) = true.
Proof.
  intros Ha.
  destruct (run_call_final c s)
    as [->|[[cores [w ->]]|[[Ho [evs ->]]|[[sg [evs [Hs ->]]]|[k [v ->]]]]]];
    cbn; try exact Ha; reflexivity.
Qed.

Lemma slot_step (c : Call) (s : State) :
  slot_kept s (final (run_call P c s)) \/ slot_replaced s (final (run_call P c s)).
Proof.
  destruct (run_call_final c s)
    as [->|[[cores [w ->]]|[[Ho [evs ->]]|[[sg [evs [Hs ->]]]|[k [v ->]]]]]].
  - left; repeat split.
  - right. eexists. cbn. repeat split.
  - right. eexists. cbn. repeat split.
  - left; repeat split.
  - left; repeat split.
Qed.

(** an invariant of single calls holds along every run *)
Lemma steps_to_invariant (allowed : Call -> bool) (I : State -> Prop) :
  (forall c s, allowed c = true -> I s -> I (final (run_call P c s))) ->
  forall s s', steps_to P allowed s s' -> I s -> I s'.
Proof.
  intros Hstep s s' Hsteps. induction Hsteps as [|c s1 s2 Hsteps IH Hal Hgo]; intros Hs.
  - exact Hs.
  - rewrite (goes_on_final _ _ Hgo). apply Hstep; [exact Hal | now apply IH].
Qed.

Lemma reachable_coherent (env : string -> string) (s : State) :
  reachable P env s -> coherent s.
Proof.
  intros Hr. apply (steps_to_invariant any_call coherent) with (s := initial env).
  - intros c s0 _. apply coherent_step.
  - exact Hr.
  - unfold coherent; cbn. split; reflexivity.
Qed.

Lemma lazily_defaulted_step (c : Call) (s : State) :
  not_Init c = true -> lazily_defaulted s ->
  lazily_defaulted (final (run_call P c s)).
Proof.
  intros Hc Hs.
  destruct c as [f lv ms mb ma by_ so| |e t a|k v]; [discriminate Hc| | |];
    cbn [run_call].
  - rewrite Default_run. cbn [final].
    destruct Hs as [[Hl [Hg [Ho Hn]]]|[level [Hlv [Hl [Hg [Ho Hn]]]]]]; rewrite Ho.
    + right. exists (default_level (environ s)).
      split; [apply default_level_cases|].
      unfold default_logger, install, new_logger. cbn. rewrite Hn. repeat split.
    + right. exists level. repeat split; assumption.
  - destruct Hs as [[Hl [Hg [Ho Hn]]]|[level [Hlv [Hl [Hg [Ho Hn]]]]]].
    + rewrite (call_entry_lazy e t a s Hg Ho).
      right. exists (default_level (environ s)).
      split; [apply default_level_cases|].
      unfold finish, default_logger, install, new_logger.
      destruct (entry_level e); cbn; rewrite Hn; repeat split.
    + rewrite (call_entry_active e t a s _ Hg).
      right. exists level.
      unfold finish. destruct (entry_level e); cbn; repeat split; assumption.
  - exact Hs.
Qed.

Lemma before_Init_lazily_defaulted (env : string -> string) (s : State) :
  before_Init P env s -> lazily_defaulted s.
Proof.
  intros Hr. apply (steps_to_invariant not_Init lazily_defaulted) with (s := initial env).
  - intros c s0. apply lazily_defaulted_step.
  - exact Hr.
  - left. repeat split.
Qed.

End Invariants.

Lemma Init_by_size (P : Platform) (filename logLevel : string)
  (maxSize maxBackups maxAge : Z) (stdout : list bool) :
  Init P filename logLevel maxSize maxBackups maxAge RollingBySize stdout
  = SizeRolling P filename logLevel maxSize maxBackups maxAge stdout.
Proof. reflexivity. Qed.

Lemma Init_by_date (P : Platform) (filename logLevel : string)
  (maxSize maxBackups maxAge : Z) (stdout : list bool) :
  Init P filename logLevel maxSize maxBackups maxAge RollingByDate stdout
  = DateRolling P filename logLevel maxBackups maxAge stdout.
Proof. reflexivity. Qed.

(** C4, as amended.  When [RotateLogs] returns an error, [DateRolling], and
    [Init] in date mode, panic with that error as the panic value, before
    anything is printed and before [Logger] or [Sugar] is assigned.  A
    program that does not guard the call ends there.  A caller that guards
    the call with a deferred [recover] gets the error back and goes on. *)
Theorem rotation_setup_failure_panics (P : Platform) (filename logLevel : string)
  (maxSize maxBackups maxAge : Z) (stdout : list bool) (s : State) (err : string)
  (Hfail : RotateLogs P filename (GoInt.to_uint maxBackups) maxAge = inr err) :
  DateRolling P filename logLevel maxBackups maxAge stdout s
  = Panicked (PanicError err) s
  /\ Init P filename logLevel maxSize maxBackups maxAge RollingByDate stdout s
     = Panicked (PanicError err) s
  /\ (forall rest,
        run P (CallInit filename logLevel maxSize maxBackups maxAge RollingByDate stdout
               :: rest) s
        = Panicked (PanicError err) s)
  /\ with_recover
       (Init P filename logLevel maxSize maxBackups maxAge RollingByDate stdout) s
     = Returned (Some (PanicError err)) s.
Proof.
  assert (HD : DateRolling P filename logLevel maxBackups maxAge stdout s
               = Panicked (PanicError err) s).
  { unfold DateRolling. now rewrite Hfail. }
  assert (HI : Init P filename logLevel maxSize maxBackups maxAge RollingByDate stdout s
               = Panicked (PanicError err) s).
  { rewrite Init_by_date. exact HD. }
  split; [exact HD|]. split; [exact HI|]. split.
  - intros rest. cbn [run run_call]. unfold bind. now rewrite HI.
  - unfold with_recover. now rewrite HI.
Qed.

(** a host whose [rotatelogs.New] rejects the pattern built from ["%Q"] *)
Lemma rotation_setup_failure_panics_witness :
  RotateLogs strict_host "%Q" (GoInt.to_uint 3) 10 = inr "invalid strftime pattern"
  /\ Init strict_host "%Q" "info" 0 3 10 RollingByDate [] (initial empty_env)
     = Panicked (PanicError "invalid strftime pattern") (initial empty_env).
Proof.
  split; [reflexivity|].
  apply (rotation_setup_failure_panics strict_host "%Q" "info" 0 3 10 []
           (initial empty_env) "invalid strftime pattern").
  reflexivity.
Defined.

(** C4 fails as stated: on a host where the setup of ["%Q"] fails, a caller
    that recovers receives the error value, the process is still running,
    and its next logging call writes through the default logger. *)
Lemma rotation_setup_failure_recovered :
  RotateLogs strict_host "%Q" (GoInt.to_uint 3) 10 = inr "invalid strftime pattern"
  /\ with_recover (Init strict_host "%Q" "info" 0 3 10 RollingByDate [])
       (initial empty_env)
     = Returned (Some (PanicError "invalid strftime pattern")) (initial empty_env)
  /\ exists s,
       (with_recover (Init strict_host "%Q" "info" 0 3 10 RollingByDate []) ;;;
        Info [Zap.AnyString "still running"]) (initial empty_env)
       = Returned tt s
       /\ trace s
          = [EvEntry Zapcore.Stdout developmentEncoderConfig Zapcore.InfoLevel
               {| Zap.template := "";
                  Zap.fmtArgs := [Zap.AnyString "still running"] |}].
Proof.
  split; [reflexivity|]. split; [reflexivity|].
  eexists. split; reflexivity.
Qed.

(** C5, as amended.  In every state a process can reach, [Logger] and
    [Sugar] are nil together or hold the same logger, and the state is
    UNINITIALIZED exactly when no logger was built yet.  An ACTIVE state
    stays ACTIVE whatever is called.  A call leaves the global logger alone
    or replaces it with a newly built one; [Init] in size mode, and [Init]
    in date mode when it returns, always replace it, so the logger is not
    created at most once.  A logging call in an ACTIVE state writes through
    the logger that is in [Sugar] at that moment.

    What makes the state ACTIVE: [Init] in size mode always returns and
    leaves it ACTIVE; [Init] in date mode leaves it ACTIVE when it returns;
    [Default] always returns and leaves it ACTIVE, replacing the logger when
    [once] had not fired and changing nothing when it had; every logging
    call, after running [Default] when [Sugar] is nil, writes through the
    logger then in [Sugar] and leaves the state ACTIVE.  What does not:
    [Init] with any other mode returns with the state as it was, and an
    [Init] that panics leaves the state as it was. *)
Theorem global_logger_slot (P : Platform) (env : string -> string) (s : State)
  (Hreach : reachable P env s) :
  coherent s
  /\ (UNINITIALIZED s <-> created s = 0%nat)
  /\ (forall c, ACTIVE s -> ACTIVE (final (run_call P c s)))
  /\ (forall c,
        slot_kept s (final (run_call P c s))
        \/ slot_replaced s (final (run_call P c s)))
  /\ (forall filename logLevel maxSize maxBackups maxAge stdout,
        slot_replaced s
          (final (Init P filename logLevel maxSize maxBackups maxAge RollingBySize
                    stdout s)))
  /\ (forall filename logLevel maxSize maxBackups maxAge stdout s',
        Init P filename logLevel maxSize maxBackups maxAge RollingByDate stdout s
        = Returned tt s' ->
        slot_replaced s s')
  /\ (forall e template args sg,
        Sugar s = Some sg ->
        call_entry e template args s
        = finish e (add_trace (entries (Zap.base sg) (entry_level e)
                                       (entry_message e template args)) s))
  /\ (forall filename logLevel maxSize maxBackups maxAge stdout,
        exists s',
          Init P filename logLevel maxSize maxBackups maxAge RollingBySize stdout s
          = Returned tt s'
          /\ ACTIVE s')
  /\ (forall filename logLevel maxSize maxBackups maxAge stdout s',
        Init P filename logLevel maxSize maxBackups maxAge RollingByDate stdout s
        = Returned tt s' ->
        ACTIVE s')
  /\ (forall filename logLevel maxSize maxBackups maxAge rollingBy stdout,
        rollingBy <> RollingBySize -> rollingBy <> RollingByDate ->
        Init P filename logLevel maxSize maxBackups maxAge rollingBy stdout s
        = Returned tt s)
  /\ (forall filename logLevel maxSize maxBackups maxAge rollingBy stdout v s',
        Init P filename logLevel maxSize maxBackups maxAge rollingBy stdout s
        = Panicked v s' ->
        s' = s)
  /\ (exists s1,
        Default s = Returned tt s1
        /\ ACTIVE s1
        /\ (once s = false -> slot_replaced s s1)
        /\ (once s = true -> s1 = s))
  /\ (forall e template args,
        exists s1 sg,
          ensure_Sugar s = Returned tt s1
          /\ Sugar s1 = Some sg
          /\ (ACTIVE s -> s1 = s)
          /\ (UNINITIALIZED s -> Default s = Returned tt s1)
          /\ call_entry e template args s
             = finish e (add_trace (entries (Zap.base sg) (entry_level e)
                                            (entry_message e template args)) s1)
          /\ ACTIVE (final (call_entry e template args s))).
Proof.
  pose proof (reachable_coherent P env s Hreach) as Hc.
  assert (Hnil : Sugar s = None -> once s = false).
  { intros Hg. unfold coherent in Hc. rewrite Hg in Hc.
    destruct (Logger s); [contradiction | exact (proj1 Hc)]. }
  assert (Hfin : forall e st, Sugar (final (finish e st)) = Sugar st).
  { intros e st. unfold finish. now destruct (entry_level e). }
  split; [exact Hc|]. split.
  { unfold UNINITIALIZED. unfold coherent in Hc.
    destruct (Logger s) as [l|], (Sugar s) as [g|]; try contradiction.
    - destruct Hc as [_ Hlt]. split; [discriminate | lia].
    - destruct Hc as [_ Hn]. split; auto. }
  split; [intros c; apply ACTIVE_step|].
  split; [intros c; apply slot_step|].
  split.
  { intros f lv ms mb ma so.
    destruct (SizeRolling_run P f lv ms mb ma so s) as [level [w [_ H]]].
    rewrite Init_by_size, H. cbn [final].
    eexists. cbn. repeat split. }
  split.
  { intros f lv ms mb ma so s' H.
    rewrite Init_by_date in H.
    pose proof (DateRolling_run P f lv mb ma so s) as HD.
    destruct (RotateLogs P f (GoInt.to_uint mb) ma) as [w|err].
    - destruct HD as [level [warning [_ HD]]]. rewrite HD in H.
      injection H as <-. eexists. cbn. repeat split.
    - rewrite HD in H. discriminate H. }
  split; [intros e t a sg Hs; now apply call_entry_active|].
  split.
  { intros f lv ms mb ma so.
    destruct (SizeRolling_run P f lv ms mb ma so s) as [level [w [_ H]]].
    rewrite Init_by_size, H. eexists. split; [reflexivity|].
    unfold ACTIVE. cbn. discriminate. }
  split.
  { intros f lv ms mb ma so s' H.
    rewrite Init_by_date in H.
    pose proof (DateRolling_run P f lv mb ma so s) as HD.
    destruct (RotateLogs P f (GoInt.to_uint mb) ma) as [w|err].
    - destruct HD as [level [warning [_ HD]]]. rewrite HD in H.
      injection H as <-. unfold ACTIVE. cbn. discriminate.
    - rewrite HD in H. discriminate H. }
  split.
  { intros f lv ms mb ma by_ so N0 N1. unfold Init.
    destruct (Z.eqb_spec by_ RollingBySize) as [E|_]; [destruct (N0 E)|].
    destruct (Z.eqb_spec by_ RollingByDate) as [E|_]; [destruct (N1 E)|].
    reflexivity. }
  split.
  { intros f lv ms mb ma by_ so v s' H.
    destruct (Init_cases P f lv ms mb ma by_ so s)
      as [H0|[[err H0]|[cores [w H0]]]]; rewrite H0 in H;
      [discriminate H | now injection H | discriminate H]. }
  split.
  { rewrite Default_run. eexists. split; [reflexivity|].
    destruct (once s) eqn:Ho.
    - split.
      { unfold ACTIVE. cbn iota. intros Hg. apply Hnil in Hg. congruence. }
      split; [discriminate | reflexivity].
    - split; [unfold ACTIVE; cbn; discriminate|].
      split; [|discriminate].
      intros _. eexists. cbn. repeat split. }
  intros e t a.
  destruct (Sugar s) as [sg|] eqn:Hg.
  - exists s, sg.
    split; [now rewrite ensure_Sugar_run, Hg|]. split; [exact Hg|].
    split; [reflexivity|].
    split; [unfold UNINITIALIZED; rewrite Hg; discriminate|].
    rewrite (call_entry_active e t a s sg Hg).
    split; [reflexivity|].
    unfold ACTIVE. rewrite Hfin. cbn. rewrite Hg. discriminate.
  - pose proof (Hnil eq_refl) as Ho.
    exists (set_once true (install (default_cores (default_level (environ s))) s)).
    exists (Zap.Sugar (new_logger (default_cores (default_level (environ s))) s)).
    split; [now rewrite ensure_Sugar_run, Hg, Default_run, Ho|].
    split; [reflexivity|].
    split; [intros Ha; destruct (Ha Hg)|].
    split; [intros _; now rewrite Default_run, Ho|].
    rewrite (call_entry_lazy e t a s Hg Ho).
    split; [reflexivity|].
    unfold ACTIVE. rewrite Hfin. cbn. discriminate.
Qed.

(** a process that has called [Init] once: the state is reachable and
    ACTIVE, a second [Init] replaces the logger, [Default] replaces it too,
    an [Init] with mode 2 changes nothing, and [Info] writes through the
    logger of the first [Init] *)
Lemma global_logger_slot_witness :
  let s1 := final (Init unix_host "a.log" "info" 10 3 7 RollingBySize []
                     (initial empty_env)) in
  reachable unix_host empty_env (initial empty_env)
  /\ reachable unix_host empty_env s1
  /\ UNINITIALIZED (initial empty_env)
  /\ ACTIVE s1
  /\ created s1 <> 0%nat
  /\ slot_replaced s1
       (final (Init unix_host "b.log" "debug" 10 3 7 RollingBySize [true] s1))
  /\ Init unix_host "c.log" "debug" 10 3 7 2 [true] s1 = Returned tt s1
  /\ (exists s2, Default s1 = Returned tt s2 /\ ACTIVE s2 /\ slot_replaced s1 s2)
  /\ ACTIVE (final (call_entry EFatal "" [Zap.AnyString "x"] s1))
  /\ call_entry EInfo "" [Zap.AnyString "x"] s1
     = Returned tt
         (add_trace
            [EvEntry
               (Zapcore.FileBySize
                  {| Lumberjack.Filename := "a.log";
                     Lumberjack.MaxSize := 10;
                     Lumberjack.LocalTime := true;
                     Lumberjack.MaxBackups := 3;
                     Lumberjack.MaxAge := 7;
                     Lumberjack.Compress := true |})
               {| Zapcore.preset := Zapcore.ProductionEncoderConfig;
                  Zapcore.EncodeTime := timeEncoder;
                  Zapcore.EncodeLevel := Zapcore.CapitalLevelEncoder |}
               Zapcore.InfoLevel
               {| Zap.template := ""; Zap.fmtArgs := [Zap.AnyString "x"] |}]
            s1).
Proof.
  intros s1.
  assert (H0 : reachable unix_host empty_env (initial empty_env)) by apply steps_refl.
  assert (H1 : reachable unix_host empty_env s1).
  { apply (steps_call _ _ _ (CallInit "a.log" "info" 10 3 7 RollingBySize [])
             (initial empty_env)); [exact H0 | reflexivity|].
    left; reflexivity. }
  destruct (global_logger_slot unix_host empty_env (initial empty_env) H0)
    as [_ [Huninit [_ [_ [_ [_ [_ [Hsize0 _]]]]]]]].
  destruct (global_logger_slot unix_host empty_env s1 H1)
    as [_ [Hcreated [_ [_ [Hsize [_ [Hroute [_ [_ [Hother [_ [Hdefault Hlog]]]]]]]]]]]].
  split; [exact H0|]. split; [exact H1|].
  split; [apply (proj2 Huninit); reflexivity|].
  assert (Hactive : ACTIVE s1).
  { destruct (Hsize0 "a.log" "info" 10 3 7 []) as [s' [Hrun Ha]].
    injection Hrun as <-. exact Ha. }
  split; [exact Hactive|].
  split; [intros Hz; exact (Hactive (proj2 Hcreated Hz))|].
  split; [apply Hsize|].
  split; [apply Hother; discriminate|].
  split.
  { destruct Hdefault as [s2 [Hrun [Ha [Hrep _]]]].
    exists s2. split; [exact Hrun|]. split; [exact Ha | apply Hrep; reflexivity]. }
  split.
  { destruct (Hlog EFatal "" [Zap.AnyString "x"]) as [s2 [sg [_ [_ [_ [_ [_ Ha]]]]]]].
    exact Ha. }
  exact (Hroute EInfo "" [Zap.AnyString "x"] _ eq_refl).
Defined.

(** C5 fails as stated: after two calls of [Init] two loggers have been
    built and the second has replaced the first; the same happens when
    [Default] is called after [Init]. *)
Lemma global_logger_created_twice :
  let init_a := CallInit "a.log" "info" 10 3 7 RollingBySize [] in
  let init_b := CallInit "b.log" "debug" 10 3 7 RollingBySize [] in
  let s1 := final (run unix_host [init_a] (initial empty_env)) in
  let s2 := final (run unix_host [init_a; init_b] (initial empty_env)) in
  let s3 := final (run unix_host [init_a; CallDefault] (initial empty_env)) in
  reachable unix_host empty_env s1
  /\ reachable unix_host empty_env s2
  /\ reachable unix_host empty_env s3
  /\ ACTIVE s1 /\ created s1 = 1%nat
  /\ created s2 = 2%nat /\ Logger s2 <> Logger s1
  /\ created s3 = 2%nat /\ Logger s3 <> Logger s1
  /\ ~ (forall s, reachable unix_host empty_env s -> (created s <= 1)%nat).
Proof.
  intros init_a init_b s1 s2 s3.
  assert (R1 : reachable unix_host empty_env s1).
  { apply (steps_call _ _ _ init_a (initial empty_env)); [apply steps_refl | reflexivity|].
    left; reflexivity. }
  assert (R2 : reachable unix_host empty_env s2).
  { apply (steps_call _ _ _ init_b s1); [exact R1 | reflexivity|].
    left; reflexivity. }
  assert (R3 : reachable unix_host empty_env s3).
  { apply (steps_call _ _ _ CallDefault s1); [exact R1 | reflexivity|].
    left; reflexivity. }
  repeat split; try assumption; try reflexivity; try discriminate.
  intros H. specialize (H s2 R2). vm_compute in H. lia.
Qed.

(** C6.  When [Default] runs its body (the [once] has not fired), the logger
    it installs has a single core, a development console encoder on standard
    output, whose level is [InfoLevel] when [DEBUG] is unset or empty and
    [DebugLevel] when [DEBUG] holds any non-empty string. *)
Theorem Default_level_from_environment (s : State) (Hfirst : once s = false) :
  exists l s',
    Default s = Returned tt s'
    /\ Logger s' = Some l /\ Sugar s' = Some (Zap.Sugar l)
    /\ (exists level,
          Zap.cores l
          = [Zapcore.NewCore developmentEncoderConfig Zapcore.Stdout level]
          /\ (environ s "DEBUG" = "" -> level = Zapcore.InfoLevel)
          /\ (environ s "DEBUG" <> "" -> level = Zapcore.DebugLevel))
    /\ trace s' = trace s.
Proof.
  rewrite Default_run, Hfirst.
  eexists. eexists. split; [reflexivity|]. cbn.
  split; [reflexivity|]. split; [reflexivity|]. split; [|reflexivity].
  exists (default_level (environ s)). split; [reflexivity|].
  unfold default_level.
  destruct (String.eqb_spec (environ s "DEBUG") ""); split; congruence.
Qed.

(** without [DEBUG] the level is INFO, with [DEBUG=true] it is DEBUG *)
Lemma Default_level_from_environment_witness :
  once (initial empty_env) = false
  /\ once (initial debug_env) = false
  /\ (exists l s',
        Default (initial empty_env) = Returned tt s' /\ Logger s' = Some l
        /\ Zap.cores l = default_cores Zapcore.InfoLevel)
  /\ (exists l s',
        Default (initial debug_env) = Returned tt s' /\ Logger s' = Some l
        /\ Zap.cores l = default_cores Zapcore.DebugLevel).
Proof.
  split; [reflexivity|]. split; [reflexivity|]. split.
  - destruct (Default_level_from_environment (initial empty_env) eq_refl)
      as [l [s' [Hrun [Hl [_ [[level [Hc [Hinfo _]]] _]]]]]].
    exists l, s'. split; [exact Hrun|]. split; [exact Hl|].
    rewrite Hc, (Hinfo eq_refl). reflexivity.
  - destruct (Default_level_from_environment (initial debug_env) eq_refl)
      as [l [s' [Hrun [Hl [_ [[level [Hc [_ Hdebug]]] _]]]]]].
    exists l, s'. split; [exact Hrun|]. split; [exact Hl|].
    rewrite Hc, Hdebug; [reflexivity | discriminate].
Defined.

(** C7.  [Default] returns, and [once] has fired afterwards.  A second call,
    at once or after any other calls of the process, returns the state it
    was given: [Logger] and [Sugar] keep the instance they hold, no logger is
    built, nothing is printed.  Two calls in a row do what one call does. *)
Theorem Default_runs_once (P : Platform) (s : State) :
  exists s1,
    Default s = Returned tt s1
    /\ once s1 = true
    /\ Default s1 = Returned tt s1
    /\ (Default ;;; Default) s = Default s
    /\ (once s = true -> s1 = s)
    /\ (forall s2, steps_to P any_call s1 s2 ->
          once s2 = true /\ Default s2 = Returned tt s2).
Proof.
  assert (Hdone : forall s0, once s0 = true -> Default s0 = Returned tt s0).
  { intros s0 H0. now rewrite Default_run, H0. }
  rewrite Default_run.
  eexists. split; [reflexivity|].
  assert (H1 : once (if once s then s
                     else set_once true
                            (install (default_cores (default_level (environ s))) s))
               = true).
  { destruct (once s) eqn:Ho; [exact Ho | reflexivity]. }
  split; [exact H1|].
  split; [now apply Hdone|].
  split.
  { unfold bind. rewrite Default_run. now apply Hdone. }
  split.
  { intros Ho. now rewrite Ho. }
  intros s2 Hsteps.
  assert (H2 : once s2 = true).
  { apply (steps_to_invariant P any_call (fun x => once x = true)) with (s := 
      if once s then s
      else set_once true (install (default_cores (default_level (environ s))) s)).
    - intros c s0 _. apply once_step.
    - exact Hsteps.
    - exact H1. }
  split; [exact H2 | now apply Hdone].
Qed.

(** C8.  In a process that has not called [Init], every logging entry point
    first makes sure that [Sugar] is not nil, running [Default] when it is,
    and then writes its record, at its own level, through the default logger:
    one development console core on standard output at INFO or DEBUG.  The
    call never panics on a nil receiver; the eight entry points below FATAL
    return, and [Fatal] and [Fatalf] exit with status 1 after the write. *)
Theorem logging_before_Init (P : Platform) (env : string -> string) (s : State)
  (e : EntryPoint) (template : string) (args : list Zap.Any)
  (Hbefore : before_Init P env s) :
  exists level s1,
    (level = Zapcore.InfoLevel \/ level = Zapcore.DebugLevel)
    /\ ensure_Sugar s = Returned tt s1
    /\ Logger s1 = Some (default_logger level)
    /\ Sugar s1 = Some (Zap.Sugar (default_logger level))
    /\ (UNINITIALIZED s ->
        Default s = Returned tt s1 /\ level = default_level (environ s)
        /\ trace s1 = trace s)
    /\ (ACTIVE s -> s1 = s)
    /\ call_entry e template args s
       = finish e
           (add_trace (entries (default_logger level) (entry_level e)
                               (entry_message e template args)) s1)
    /\ entries (default_logger level) (entry_level e) (entry_message e template args)
       = (if Zapcore.Enabled level (entry_level e)
          then [EvEntry Zapcore.Stdout developmentEncoderConfig (entry_level e)
                  (entry_message e template args)]
          else [])
    /\ (forall v s', call_entry e template args s <> Panicked v s')
    /\ (entry_level e <> Zapcore.FatalLevel ->
        exists s', call_entry e template args s = Returned tt s')
    /\ (entry_level e = Zapcore.FatalLevel ->
        exists s', call_entry e template args s = Exited 1 s').
Proof.
  assert (Hent : forall level,
            entries (default_logger level) (entry_level e)
                    (entry_message e template args)
            = (if Zapcore.Enabled level (entry_level e)
               then [EvEntry Zapcore.Stdout developmentEncoderConfig (entry_level e)
                       (entry_message e template args)]
               else [])).
  { intros level. unfold entries, default_logger, default_cores. cbn.
    destruct (Zapcore.Enabled level (entry_level e)); reflexivity. }
  assert (Hret : forall st, entry_level e <> Zapcore.FatalLevel ->
                   exists s', finish e st = Returned tt s').
  { intros st Hne. unfold finish.
    destruct (entry_level e); try (eexists; reflexivity). destruct (Hne eq_refl). }
  assert (Hexit : forall st, entry_level e = Zapcore.FatalLevel ->
                    exists s', finish e st = Exited 1 s').
  { intros st He. unfold finish. rewrite He. eexists; reflexivity. }
  pose proof (before_Init_lazily_defaulted P env s Hbefore) as Hs.
  assert (Hfin : forall st v s', finish e st <> Panicked v s').
  { intros st v s'. unfold finish. destruct (entry_level e); discriminate. }
  destruct Hs as [[Hl [Hg [Ho Hn]]]|[level [Hlv [Hl [Hg [Ho Hn]]]]]].
  - exists (default_level (environ s)).
    exists (set_once true (install (default_cores (default_level (environ s))) s)).
    assert (Hnew : new_logger (default_cores (default_level (environ s))) s
                   = default_logger (default_level (environ s))).
    { unfold new_logger, default_logger. now rewrite Hn. }
    split; [apply default_level_cases|].
    split; [now rewrite ensure_Sugar_run, Hg, Default_run, Ho|].
    split; [cbn; now rewrite Hnew|].
    split; [cbn; now rewrite Hnew|].
    split.
    { intros _. rewrite Default_run, Ho. repeat split. }
    split.
    { intros Ha. destruct (Ha Hg). }
    rewrite (call_entry_lazy e template args s Hg Ho), Hnew.
    split; [reflexivity|]. split; [apply Hent|].
    split; [intros v s'; apply Hfin|].
    split; [apply Hret | apply Hexit].
  - exists level, s.
    split; [exact Hlv|].
    split; [now rewrite ensure_Sugar_run, Hg|].
    split; [exact Hl|]. split; [exact Hg|].
    split.
    { intros Hu. unfold UNINITIALIZED in Hu. rewrite Hg in Hu. discriminate Hu. }
    split; [reflexivity|].
    rewrite (call_entry_active e template args s _ Hg).
    split; [reflexivity|]. split; [apply Hent|].
    split; [intros v s'; apply Hfin|].
    split; [apply Hret | apply Hexit].
Qed.

(** the first call of a process may be [Debugf] *)
Lemma logging_before_Init_witness :
  before_Init unix_host empty_env (initial empty_env)
  /\ forall v s',
       call_entry EDebugf "%v" [Zap.AnyInt 5] (initial empty_env) <> Panicked v s'.
Proof.
  assert (H : before_Init unix_host empty_env (initial empty_env)) by apply steps_refl.
  split; [exact H|].
  destruct (logging_before_Init unix_host empty_env (initial empty_env)
              EDebugf "%v" [Zap.AnyInt 5] H)
    as [level [s1 [_ [_ [_ [_ [_ [_ [_ [_ [Hno _]]]]]]]]]]].
  exact Hno.
Defined.

(** C9.  In date mode the outcome of [Init] (the result, the global logger,
    the output) does not depend on [maxSize]. *)
Theorem Init_by_date_ignores_maxSize (P : Platform) (filename logLevel : string)
  (maxSize maxSize' maxBackups maxAge : Z) (stdout : list bool) (s : State) :
  Init P filename logLevel maxSize maxBackups maxAge RollingByDate stdout s
  = Init P filename logLevel maxSize' maxBackups maxAge RollingByDate stdout s.
Proof. rewrite !Init_by_date. reflexivity. Qed.

(** C10.  With a [rollingBy] that is neither [RollingBySize] nor
    [RollingByDate], [Init] returns without a panic and leaves the whole
    state, [Logger] and [Sugar] included, as it was. *)
Theorem Init_unknown_mode_is_noop (P : Platform) (filename logLevel : string)
  (maxSize maxBackups maxAge rollingBy : Z) (stdout : list bool) (s : State)
  (Hsize : rollingBy <> RollingBySize) (Hdate : rollingBy <> RollingByDate) :
  Init P filename logLevel maxSize maxBackups maxAge rollingBy stdout s = Returned tt s
  /\ final (Init P filename logLevel maxSize maxBackups maxAge rollingBy stdout s) = s
  /\ with_recover
       (Init P filename logLevel maxSize maxBackups maxAge rollingBy stdout) s
     = Returned None s.
Proof.
  assert (H : Init P filename logLevel maxSize maxBackups maxAge rollingBy stdout s
              = Returned tt s).
  { unfold Init.
    destruct (Z.eqb_spec rollingBy RollingBySize) as [E|_]; [destruct (Hsize E)|].
    destruct (Z.eqb_spec rollingBy RollingByDate) as [E|_]; [destruct (Hdate E)|].
    reflexivity. }
  split; [exact H|]. split; [now rewrite H|].
  unfold with_recover. now rewrite H.
Qed.

(** [rollingBy = 2] *)
Lemma Init_unknown_mode_is_noop_witness :
  2 <> RollingBySize /\ 2 <> RollingByDate
  /\ Init unix_host "app.log" "debug" 10 3 7 2 [true] (initial empty_env)
     = Returned tt (initial empty_env).
Proof.
  assert (H0 : 2 <> RollingBySize) by discriminate.
  assert (H1 : 2 <> RollingByDate) by discriminate.
  split; [exact H0|]. split; [exact H1|].
  exact (proj1 (Init_unknown_mode_is_noop unix_host "app.log" "debug" 10 3 7 2 [true]
                  (initial empty_env) H0 H1)).
Defined.

(** ** The test program, and the nil receiver *)

(** test/test_log.go sets [DEBUG] and logs without calling [Init]: the four
    records reach standard output through one default logger at DEBUG *)
Example test_log_main_trace :
  exists s,
    run unix_host test_log_main (initial empty_env) = Returned tt s
    /\ Logger s = Some (default_logger Zapcore.DebugLevel)
    /\ created s = 1%nat
    /\ map (fun ev => match ev with
                      | EvEntry ws _ lvl _ => Some (ws, lvl)
                      | EvPrintf _ => None
                      end) (trace s)
       = [Some (Zapcore.Stdout, Zapcore.InfoLevel);
          Some (Zapcore.Stdout, Zapcore.ErrorLevel);
          Some (Zapcore.Stdout, Zapcore.DebugLevel);
          Some (Zapcore.Stdout, Zapcore.DebugLevel)].
Proof. eexists. repeat split. Qed.

(** without [DEBUG] the default logger drops the two [Debugf] records *)
Example test_log_main_without_DEBUG :
  exists s,
    run unix_host (tl test_log_main) (initial empty_env) = Returned tt s
    /\ Logger s = Some (default_logger Zapcore.InfoLevel)
    /\ List.length (trace s) = 2%nat.
Proof. eexists. repeat split. Qed.

(** the nil check of the entry points does not help once [once] has fired *)
Example nil_receiver_panics :
  Info [Zap.AnyString "x"] Sugar_cleared = Panicked NilPointerDereference Sugar_cleared.
Proof. reflexivity. Qed.

(** * Further properties of the package *)

(** ** What a call does, whatever the state *)

Section Uniform.

Variable P : Platform.

(** the level and the warning of [logLv] do not depend on the state *)
Lemma logLv_uniform (logLevel : string) :
  exists level warning,
    (warning = [] \/ warning = [EvPrintf (warning_text logLevel)])
    /\ forall s, logLv P logLevel s = Returned level (add_trace warning s).
Proof.
  unfold logLv.
  repeat match goal with
  | |- context [String.eqb ?a ?b] => destruct (String.eqb a b)
  end; cbn [orb];
  try (eexists; exists []; split; [now left|];
       intros s; rewrite add_trace_nil; reflexivity).
  eexists; eexists; split; [now right|]. intros s. reflexivity.
Qed.

Lemma file_cores_shape (ws : Zapcore.WriteSyncer) (level : Zapcore.Level)
  (stdout : list bool) :
  file_cores ws level stdout
  = Zapcore.NewCore fileEncoderConfig ws level
    :: (if echo_flag stdout
        then [Zapcore.NewCore developmentEncoderConfig Zapcore.Stdout level]
        else []).
Proof. destruct stdout as [|[|] rest]; reflexivity. Qed.

(** [Init] does nothing, or panics on the error of [RotateLogs], or prints
    the warning of [logLv] and installs a logger around a file sink; which
    of the three, and with what, is decided by the arguments alone *)
Lemma Init_uniform (filename logLevel : string) (maxSize maxBackups maxAge rollingBy : Z)
  (stdout : list bool) :
  (rollingBy <> RollingBySize /\ rollingBy <> RollingByDate
   /\ forall s,
        Init P filename logLevel maxSize maxBackups maxAge rollingBy stdout s
        = Returned tt s)
  \/ (rollingBy = RollingByDate
      /\ exists err,
           RotateLogs P filename (GoInt.to_uint maxBackups) maxAge = inr err
           /\ forall s,
                Init P filename logLevel maxSize maxBackups maxAge rollingBy stdout s
                = Panicked (PanicError err) s)
  \/ (exists ws level warning,
        ((rollingBy = RollingBySize
          /\ ws = Zapcore.FileBySize
                    {| Lumberjack.Filename := filename;
                       Lumberjack.MaxSize := maxSize;
                       Lumberjack.LocalTime := true;
                       Lumberjack.MaxBackups := maxBackups;
                       Lumberjack.MaxAge := maxAge;
                       Lumberjack.Compress := true |})
         \/ (rollingBy = RollingByDate
             /\ exists w,
                  RotateLogs P filename (GoInt.to_uint maxBackups) maxAge = inl w
                  /\ ws = Zapcore.FileByDate w))
        /\ (warning = [] \/ warning = [EvPrintf (warning_text logLevel)])
        /\ (forall s, logLv P logLevel s = Returned level (add_trace warning s))
        /\ forall s,
             Init P filename logLevel maxSize maxBackups maxAge rollingBy stdout s
             = Returned tt (install (file_cores ws level stdout) (add_trace warning s))).
Proof.
  destruct (logLv_uniform logLevel) as [level [warning [Hw Hlv]]].
  unfold Init.
  destruct (Z.eqb_spec rollingBy RollingBySize) as [E0|N0].
  - right; right. eexists; exists level, warning.
    split; [left; split; [exact E0 | reflexivity]|].
    split; [exact Hw|]. split; [exact Hlv|].
    intros s. unfold SizeRolling, bind at 1. rewrite Hlv. reflexivity.
  - destruct (Z.eqb_spec rollingBy RollingByDate) as [E1|N1].
    + unfold DateRolling.
      destruct (RotateLogs P filename (GoInt.to_uint maxBackups) maxAge) as [w|err] eqn:HR.
      * right; right. exists (Zapcore.FileByDate w), level, warning.
        split; [right; split; [exact E1 | exists w; split; reflexivity]|].
        split; [exact Hw|]. split; [exact Hlv|].
        intros s. unfold bind at 1. rewrite Hlv. reflexivity.
      * right; left. split; [exact E1|]. exists err. split; reflexivity.
    + left. repeat split; assumption.
Qed.

End Uniform.

(** ** Helpers on states *)

Lemma Sugar_eta (sg : Zap.SugaredLogger) : Zap.Sugar (Zap.base sg) = sg.
Proof. now destruct sg. Qed.

Lemma Enabled_Fatal (level : Zapcore.Level) :
  Zapcore.Enabled level Zapcore.FatalLevel = true.
Proof. now destruct level. Qed.

Lemma entries_Fatal (l : Zap.Logger) (msg : Zap.Message) :
  entries l Zapcore.FatalLevel msg
  = map (record_of Zapcore.FatalLevel msg) (Zap.cores l).
Proof.
  unfold entries, record_of.
  induction (Zap.cores l) as [|c cs IH]; [reflexivity|].
  cbn [filter]. rewrite Enabled_Fatal. cbn [map]. now rewrite IH.
Qed.

Lemma entries_file_cores (ws : Zapcore.WriteSyncer) (level : Zapcore.Level)
  (stdout : list bool) (s : State) (lvl : Zapcore.Level) (msg : Zap.Message) :
  entries (new_logger (file_cores ws level stdout) s) lvl msg
  = file_records ws level (echo_flag stdout) lvl msg.
Proof.
  rewrite file_cores_shape. unfold entries, file_records, new_logger.
  cbn [Zap.cores]. 
  destruct (echo_flag stdout); cbn [filter Zapcore.enabler];
    destruct (Zapcore.Enabled level lvl); reflexivity.
Qed.

Lemma entries_default_cores (level : Zapcore.Level) (s : State)
  (lvl : Zapcore.Level) (msg : Zap.Message) :
  entries (new_logger (default_cores level) s) lvl msg
  = (if Zapcore.Enabled level lvl
     then [EvEntry Zapcore.Stdout developmentEncoderConfig lvl msg]
     else []).
Proof.
  unfold entries, new_logger, default_cores. cbn [Zap.cores filter Zapcore.enabler].
  destruct (Zapcore.Enabled level lvl); reflexivity.
Qed.

(** ** Failure modes and configuration of [Init] *)

(** X1.  [Init] never exits the process and never panics on a nil pointer.
    It panics only in date mode, only when [RotateLogs] returned an error,
    with that error as the panic value and with the state untouched.  In
    size mode it returns for every input, and in date mode it returns
    whenever [RotateLogs] did. *)
Theorem Init_fails_only_on_rotation_setup (P : Platform) (filename logLevel : string)
  (maxSize maxBackups maxAge rollingBy : Z) (stdout : list bool) (s : State) :
  (forall code s',
     Init P filename logLevel maxSize maxBackups maxAge rollingBy stdout s
     <> Exited code s')
  /\ (forall v s',
        Init P filename logLevel maxSize maxBackups maxAge rollingBy stdout s
        = Panicked v s' ->
        rollingBy = RollingByDate /\ s' = s
        /\ exists err,
             v = PanicError err
             /\ RotateLogs P filename (GoInt.to_uint maxBackups) maxAge = inr err)
  /\ (rollingBy = RollingBySize ->
      exists s',
        Init P filename logLevel maxSize maxBackups maxAge rollingBy stdout s
        = Returned tt s')
  /\ (forall w,
        rollingBy = RollingByDate ->
        RotateLogs P filename (GoInt.to_uint maxBackups) maxAge = inl w ->
        exists s',
          Init P filename logLevel maxSize maxBackups maxAge rollingBy stdout s
          = Returned tt s').
Proof.
  destruct (Init_uniform P filename logLevel maxSize maxBackups maxAge rollingBy stdout)
    as [[N0 [N1 H]]|[[E1 [err [HR H]]]|[ws [level [warning [Hws [_ [_ H]]]]]]]];
    rewrite (H s).
  - split; [discriminate|]. split; [discriminate|].
    split; [intros E; destruct (N0 E)|]. intros w E; destruct (N1 E).
  - split; [discriminate|]. split.
    { intros v s' [= <- <-]. split; [exact E1|]. split; [reflexivity|]. eauto. }
    split; [intros E; rewrite E in E1; discriminate E1|].
    intros w _ Hw. rewrite Hw in HR. discriminate HR.
  - split; [discriminate|]. split; [discriminate|]. split; eauto.
Qed.

(** X2.  When [Init] returns in size or date mode, [Logger] holds a new
    logger and [Sugar] its wrapper.  The first core is the file core:
    production encoder with the RFC 3339 time and the capital level, on the
    lumberjack writer built from the arguments as they are (size mode) or on
    the writer [RotateLogs] returned (date mode).  A development console
    core on standard output follows exactly when the first [stdout] flag is
    set.  Both cores have the level [logLv] returned; the only output of
    [Init] is the warning of [logLv]; [once] and the environment are kept. *)
Theorem Init_installs_file_and_console_cores (P : Platform) (filename logLevel : string)
  (maxSize maxBackups maxAge rollingBy : Z) (stdout : list bool) (s s' : State)
  (Hmode : rollingBy = RollingBySize \/ rollingBy = RollingByDate)
  (Hrun : Init P filename logLevel maxSize maxBackups maxAge rollingBy stdout s
          = Returned tt s') :
  exists ws level warning l,
    logLv P logLevel s = Returned level (add_trace warning s)
    /\ Logger s' = Some l /\ Sugar s' = Some (Zap.Sugar l)
    /\ Zap.addr l = created s
    /\ Zap.cores l
       = Zapcore.NewCore fileEncoderConfig ws level
         :: (if echo_flag stdout
             then [Zapcore.NewCore developmentEncoderConfig Zapcore.Stdout level]
             else [])
    /\ (rollingBy = RollingBySize ->
        ws = Zapcore.FileBySize
               {| Lumberjack.Filename := filename;
                  Lumberjack.MaxSize := maxSize;
                  Lumberjack.LocalTime := true;
                  Lumberjack.MaxBackups := maxBackups;
                  Lumberjack.MaxAge := maxAge;
                  Lumberjack.Compress := true |})
    /\ (rollingBy = RollingByDate ->
        exists w,
          RotateLogs P filename (GoInt.to_uint maxBackups) maxAge = inl w
          /\ ws = Zapcore.FileByDate w)
    /\ trace s' = (trace s ++ warning)%list
    /\ once s' = once s /\ environ s' = environ s.
Proof.
  destruct (Init_uniform P filename logLevel maxSize maxBackups maxAge rollingBy stdout)
    as [[N0 [N1 H]]|[[E1 [err [HR H]]]|[ws [level [warning [Hws [_ [Hlv H]]]]]]]].
  - destruct Hmode as [E|E]; [destruct (N0 E) | destruct (N1 E)].
  - rewrite (H s) in Hrun. discriminate Hrun.
  - rewrite (H s) in Hrun. injection Hrun as <-.
    exists ws, level, warning.
    exists (new_logger (file_cores ws level stdout) (add_trace warning s)).
    split; [apply Hlv|]. split; [reflexivity|]. split; [reflexivity|].
    split; [reflexivity|]. split; [apply file_cores_shape|].
    split.
    { intros E. destruct Hws as [[_ Hw]|[E1 _]]; [exact Hw|].
      rewrite E in E1. discriminate E1. }
    split.
    { intros E. destruct Hws as [[E0 _]|[_ Hw]]; [|exact Hw].
      rewrite E in E0. discriminate E0. }
    repeat split.
Qed.

Lemma Init_installs_file_and_console_cores_witness :
  exists l,
    Logger (final (Init unix_host "app.log" "warn" 10 3 7 RollingBySize [true]
                     (initial empty_env))) = Some l
    /\ List.length (Zap.cores l) = 2%nat.
Proof.
  destruct (Init_installs_file_and_console_cores unix_host "app.log" "warn" 10 3 7
              RollingBySize [true] (initial empty_env) _ (or_introl eq_refl) eq_refl)
    as [ws [level [warning [l [_ [Hl [_ [_ [Hc _]]]]]]]]].
  exists l. split; [exact Hl|]. rewrite Hc. reflexivity.
Defined.

(** X3.  Of the variadic [stdout] flags only the first is read: further
    flags change nothing, and no flag at all is the same as [false]. *)
Theorem Init_reads_first_stdout_flag_only (P : Platform) (filename logLevel : string)
  (maxSize maxBackups maxAge rollingBy : Z) (b : bool) (rest : list bool) (s : State) :
  Init P filename logLevel maxSize maxBackups maxAge rollingBy (b :: rest) s
  = Init P filename logLevel maxSize maxBackups maxAge rollingBy [b] s
  /\ Init P filename logLevel maxSize maxBackups maxAge rollingBy [] s
     = Init P filename logLevel maxSize maxBackups maxAge rollingBy [false] s
  /\ (forall level cores,
        devCore (b :: rest) level cores
        = if b
          then (cores ++ [Zapcore.NewCore developmentEncoderConfig Zapcore.Stdout level])%list
          else cores)
  /\ (forall level cores, devCore [] level cores = cores).
Proof.
  split; [reflexivity|]. split; [reflexivity|]. split; [|reflexivity].
  intros level cores. destruct b; reflexivity.
Qed.

(** ** Logging through an installed logger *)

(** X4.  After [Init] returned in size or date mode with a level string
    that [logLv] parses to [level], a call of any entry point writes one
    record to the file sink, and one more to standard output when the
    console flag is set, if the level of the entry point is at least
    [level]; below [level] it leaves the state as it is. *)
Theorem configured_level_filters_records (P : Platform) (filename logLevel : string)
  (maxSize maxBackups maxAge rollingBy : Z) (stdout : list bool) (s s' : State)
  (level : Zapcore.Level) (s0 : State)
  (Hmode : rollingBy = RollingBySize \/ rollingBy = RollingByDate)
  (Hrun : Init P filename logLevel maxSize maxBackups maxAge rollingBy stdout s
          = Returned tt s')
  (Hlevel : logLv P logLevel s = Returned level s0) :
  exists ws,
    forall e template args,
      call_entry e template args s'
      = finish e
          (add_trace
             (file_records ws level (echo_flag stdout) (entry_level e)
                           (entry_message e template args)) s')
      /\ (Zapcore.level_value (entry_level e) < Zapcore.level_value level ->
          final (call_entry e template args s') = s')
      /\ (Zapcore.level_value level <= Zapcore.level_value (entry_level e) ->
          List.length (trace (final (call_entry e template args s')))
          = (List.length (trace s') + (if echo_flag stdout then 2 else 1))%nat).
Proof.
  destruct (Init_uniform P filename logLevel maxSize maxBackups maxAge rollingBy stdout)
    as [[N0 [N1 H]]|[[E1 [err [HR H]]]|[ws [level' [warning [Hws [_ [Hlv H]]]]]]]].
  - destruct Hmode as [E|E]; [destruct (N0 E) | destruct (N1 E)].
  - rewrite (H s) in Hrun. discriminate Hrun.
  - rewrite (H s) in Hrun. injection Hrun as <-.
    rewrite (Hlv s) in Hlevel. injection Hlevel as <- _.
    exists ws. intros e template args.
    set (s' := install (file_cores ws level' stdout) (add_trace warning s)).
    assert (Hcall : call_entry e template args s'
      = finish e
          (add_trace
             (file_records ws level' (echo_flag stdout) (entry_level e)
                           (entry_message e template args)) s')).
    { rewrite (call_entry_active e template args s' _ eq_refl).
      cbn [Zap.base Zap.Sugar]. now rewrite entries_file_cores. }
    split; [exact Hcall|].
    assert (Hfinal : forall st, final (finish e st) = st).
    { intros st. unfold finish. now destruct (entry_level e). }
    rewrite Hcall, Hfinal. unfold file_records, Zapcore.Enabled.
    split.
    + intros Hlt. destruct (Z.leb_spec (Zapcore.level_value level')
                              (Zapcore.level_value (entry_level e))); [lia|].
      apply add_trace_nil.
    + intros Hle. destruct (Z.leb_spec (Zapcore.level_value level')
                              (Zapcore.level_value (entry_level e))); [|lia].
      cbn [trace add_trace]. rewrite length_app.
      destruct (echo_flag stdout); reflexivity.
Qed.

Lemma configured_level_filters_records_witness :
  final (call_entry EInfo "" [Zap.AnyString "dropped"]
           (final (Init unix_host "app.log" "warn" 10 3 7 RollingBySize [true]
                     (initial empty_env))))
  = final (Init unix_host "app.log" "warn" 10 3 7 RollingBySize [true]
             (initial empty_env)).
Proof.
  destruct (configured_level_filters_records unix_host "app.log" "warn" 10 3 7
              RollingBySize [true] (initial empty_env) _ Zapcore.WarnLevel _
              (or_introl eq_refl) eq_refl eq_refl) as [ws H].
  destruct (H EInfo "" [Zap.AnyString "dropped"]) as [_ [Hdrop _]].
  apply Hdrop. cbn. lia.
Defined.

(** ** Invariants of runs *)

Section Runs.

Variable P : Platform.

Lemma has_sink_step (c : Call) (s : State) :
  has_sink s -> has_sink (final (run_call P c s)).
Proof.
  intros Hs.
  destruct c as [f lv ms mb ma by_ so| |e t a|k v]; cbn [run_call].
  - destruct (Init_uniform P f lv ms mb ma by_ so)
      as [[_ [_ H]]|[[_ [err [_ H]]]|[ws [level [warning [_ [_ [_ H]]]]]]]];
      rewrite (H s); cbn [final]; try exact Hs.
    unfold has_sink. cbn. rewrite file_cores_shape. discriminate.
  - rewrite Default_run. cbn [final].
    destruct (once s) eqn:Ho; [exact Hs|].
    unfold has_sink. cbn. discriminate.
  - unfold has_sink in Hs. destruct (Sugar s) as [sg|] eqn:Hg.
    + rewrite (call_entry_active e t a s sg Hg).
      unfold finish, has_sink. destruct (entry_level e); cbn; rewrite Hg; exact Hs.
    + rewrite (call_entry_lazy e t a s Hg Hs).
      unfold finish, has_sink. destruct (entry_level e); cbn; discriminate.
  - exact Hs.
Qed.

Lemma reachable_has_sink (env : string -> string) (s : State) :
  reachable P env s -> has_sink s.
Proof.
  intros Hr. apply (steps_to_invariant P any_call has_sink) with (s := initial env).
  - intros c s0 _. apply has_sink_step.
  - exact Hr.
  - reflexivity.
Qed.

Lemma Init_or_Setenv_step (c : Call) (s : State) :
  Init_or_Setenv c = true -> once s = false ->
  once (final (run_call P c s)) = false.
Proof.
  intros Hc Ho.
  destruct c as [f lv ms mb ma by_ so| |e t a|k v]; try discriminate Hc;
    cbn [run_call].
  - destruct (Init_uniform P f lv ms mb ma by_ so)
      as [[_ [_ H]]|[[_ [err [_ H]]]|[ws [level [warning [_ [_ [_ H]]]]]]]];
      rewrite (H s); exact Ho.
  - exact Ho.
Qed.

End Runs.

(** X5.  In every state a process can reach, [Fatal] and [Fatalf] exit with
    status 1 after writing one record at FATAL to every core of the logger
    in use, and that logger has at least one core: no configured level
    filters a fatal record. *)
Theorem Fatal_always_leaves_a_record (P : Platform) (env : string -> string)
  (s : State) (e : EntryPoint) (template : string) (args : list Zap.Any)
  (Hreach : reachable P env s) (Hfatal : entry_level e = Zapcore.FatalLevel) :
  exists l s',
    call_entry e template args s = Exited 1 s'
    /\ Sugar s' = Some (Zap.Sugar l)
    /\ Zap.cores l <> []
    /\ trace s'
       = (trace s
          ++ map (record_of Zapcore.FatalLevel (entry_message e template args))
                 (Zap.cores l))%list.
Proof.
  pose proof (reachable_has_sink P env s Hreach) as Hs.
  unfold has_sink in Hs. destruct (Sugar s) as [sg|] eqn:Hg.
  - exists (Zap.base sg). eexists.
    rewrite (call_entry_active e template args s sg Hg).
    unfold finish. rewrite Hfatal, entries_Fatal.
    split; [reflexivity|]. cbn. rewrite Hg, Sugar_eta.
    split; [reflexivity|]. split; [exact Hs|].
    reflexivity.
  - exists (new_logger (default_cores (default_level (environ s))) s). eexists.
    rewrite (call_entry_lazy e template args s Hg Hs).
    unfold finish. rewrite Hfatal, entries_Fatal.
    split; [reflexivity|]. cbn.
    split; [reflexivity|]. split; [discriminate|].
    reflexivity.
Qed.

Lemma Fatal_always_leaves_a_record_witness :
  exists s',
    call_entry EFatalf "%v" [Zap.AnyInt 5] (initial empty_env) = Exited 1 s'
    /\ trace s' <> [].
Proof.
  destruct (Fatal_always_leaves_a_record unix_host empty_env (initial empty_env)
              EFatalf "%v" [Zap.AnyInt 5] (steps_refl _ _ _) eq_refl)
    as [l [s' [Hrun [_ [Hne Htr]]]]].
  exists s'. split; [exact Hrun|].
  rewrite Htr. cbn [trace initial app].
  destruct (Zap.cores l); [destruct (Hne eq_refl) | discriminate].
Defined.

(** X7.  As long as a process has only called [Init] and [os.Setenv], [once]
    has not fired, so a call of [Default] builds the console logger and puts
    it in place of the one [Init] installed: from then on every record goes
    to standard output only, at the level read from [DEBUG]. *)
Theorem Default_after_Init_discards_file_logger (P : Platform)
  (env : string -> string) (s : State)
  (Hinit : steps_to P Init_or_Setenv (initial env) s) :
  once s = false
  /\ exists s1,
       Default s = Returned tt s1
       /\ Logger s1
          = Some (new_logger (default_cores (default_level (environ s))) s)
       /\ Sugar s1
          = Some (Zap.Sugar
                    (new_logger (default_cores (default_level (environ s))) s))
       /\ forall e template args,
            call_entry e template args s1
            = finish e
                (add_trace
                   (if Zapcore.Enabled (default_level (environ s)) (entry_level e)
                    then [EvEntry Zapcore.Stdout developmentEncoderConfig
                            (entry_level e) (entry_message e template args)]
                    else [])
                   s1).
Proof.
  assert (Ho : once s = false).
  { apply (steps_to_invariant P Init_or_Setenv (fun x => once x = false))
      with (s := initial env).
    - intros c s0. apply Init_or_Setenv_step.
    - exact Hinit.
    - reflexivity. }
  split; [exact Ho|].
  rewrite Default_run, Ho. eexists. split; [reflexivity|].
  split; [reflexivity|]. split; [reflexivity|].
  intros e template args.
  erewrite call_entry_active by reflexivity.
  cbn [Zap.base Zap.Sugar]. now rewrite entries_default_cores.
Qed.

Lemma Default_after_Init_discards_file_logger_witness :
  let s := final (Init unix_host "app.log" "debug" 10 3 7 RollingBySize []
                    (initial empty_env)) in
  exists s1,
    Default s = Returned tt s1
    /\ Logger s1 = Some (new_logger (default_cores Zapcore.InfoLevel) s).
Proof.
  intros s.
  assert (H : steps_to unix_host Init_or_Setenv (initial empty_env) s).
  { apply (steps_call _ _ _ (CallInit "app.log" "debug" 10 3 7 RollingBySize [])
             (initial empty_env)); [apply steps_refl | reflexivity|].
    left; reflexivity. }
  destruct (Default_after_Init_discards_file_logger unix_host empty_env s H)
    as [_ [s1 [Hrun [Hl _]]]].
  exists s1. split; [exact Hrun | exact Hl].
Defined.

(** ** The environment is read once *)

Section Frozen.

Variable P : Platform.

Lemma same_but_environ_install (cores : list Zapcore.Core) (evs : list Event)
  (s s' : State) :
  same_but_environ s s' ->
  same_but_environ (install cores (add_trace evs s)) (install cores (add_trace evs s')).
Proof.
  intros [Hl [Hg [Ho [Hc Ht]]]]. unfold same_but_environ, install, new_logger.
  cbn. rewrite Hc, Ho, Ht. repeat split.
Qed.

Lemma same_but_environ_add_trace (evs : list Event) (s s' : State) :
  same_but_environ s s' -> same_but_environ (add_trace evs s) (add_trace evs s').
Proof.
  intros [Hl [Hg [Ho [Hc Ht]]]]. unfold same_but_environ. cbn.
  rewrite Hl, Hg, Ho, Hc, Ht. repeat split.
Qed.

(** once [once] has fired, a call does the same in two states that differ
    in the environment only *)
Lemma run_call_frozen (c : Call) (s s' : State) :
  same_but_environ s s' -> once s = true ->
  same_outcome_but_environ (run_call P c s) (run_call P c s').
Proof.
  intros Hsame Ho.
  pose proof Hsame as [Hl [Hg [Ho' [Hc Ht]]]].
  destruct c as [f lv ms mb ma by_ so| |e t a|k v]; cbn [run_call].
  - destruct (Init_uniform P f lv ms mb ma by_ so)
      as [[_ [_ H]]|[[_ [err [_ H]]]|[ws [level [warning [_ [_ [_ H]]]]]]]];
      rewrite (H s), (H s'); cbn.
    + exact Hsame.
    + split; [reflexivity | exact Hsame].
    + now apply same_but_environ_install.
  - rewrite !Default_run, <- Ho', Ho. exact Hsame.
  - destruct (Sugar s) as [sg|] eqn:Hs.
    + rewrite (call_entry_active e t a s sg Hs).
      rewrite (call_entry_active e t a s' sg) by (now rewrite <- Hg).
      unfold finish. destruct (entry_level e); cbn;
        try split; try reflexivity; now apply same_but_environ_add_trace.
    + rewrite (call_entry_nil e t a s Hs Ho).
      rewrite (call_entry_nil e t a s') by (now rewrite <- ?Hg, <- ?Ho').
      cbn. split; [reflexivity | exact Hsame].
  - cbn. unfold same_but_environ. cbn. repeat split; assumption.
Qed.

End Frozen.

(** X8.  Once [once] has fired the package no longer looks at the
    environment: from two states that differ in the environment only, every
    program ends the same way, with the same logger and the same output. *)
Theorem environment_is_read_once (P : Platform) (cs : list Call) (s s' : State)
  (Hfired : once s = true) (Hsame : same_but_environ s s') :
  same_outcome_but_environ (run P cs s) (run P cs s').
Proof.
  revert s s' Hfired Hsame. induction cs as [|c cs IH]; intros s s' Hfired Hsame.
  - exact Hsame.
  - cbn [run]. unfold bind.
    pose proof (run_call_frozen P c s s' Hsame Hfired) as Hstep.
    pose proof (once_step P c s Hfired) as Hnext.
    destruct (run_call P c s) as [[] s1|v s1|code s1],
             (run_call P c s') as [[] s1'|v' s1'|code' s1'];
      cbn in Hstep; try contradiction.
    + apply IH; [exact Hnext | exact Hstep].
    + exact Hstep.
    + exact Hstep.
Qed.

Lemma environment_is_read_once_witness :
  let s := final (Default (initial empty_env)) in
  same_outcome_but_environ
    (run unix_host [CallLog EDebug "" [Zap.AnyString "x"]] s)
    (run unix_host [CallLog EDebug "" [Zap.AnyString "x"]]
       (final (Setenv "DEBUG" "true" s))).
Proof.
  intros s.
  apply (environment_is_read_once unix_host).
  - reflexivity.
  - unfold same_but_environ. repeat split.
Defined.

(** X9.  What [Init] installs and prints depends on its arguments only: if
    it returns in one state, it returns in every other state, the new
    loggers have the same cores, and the same warning is printed. *)
Theorem Init_does_not_depend_on_earlier_state (P : Platform)
  (filename logLevel : string) (maxSize maxBackups maxAge rollingBy : Z)
  (stdout : list bool) (s1 s2 s1' : State)
  (Hmode : rollingBy = RollingBySize \/ rollingBy = RollingByDate)
  (Hrun : Init P filename logLevel maxSize maxBackups maxAge rollingBy stdout s1
          = Returned tt s1') :
  exists s2' l1 l2 warning,
    Init P filename logLevel maxSize maxBackups maxAge rollingBy stdout s2
    = Returned tt s2'
    /\ Logger s1' = Some l1 /\ Logger s2' = Some l2
    /\ Zap.cores l1 = Zap.cores l2
    /\ trace s1' = (trace s1 ++ warning)%list
    /\ trace s2' = (trace s2 ++ warning)%list.
Proof.
  destruct (Init_uniform P filename logLevel maxSize maxBackups maxAge rollingBy stdout)
    as [[N0 [N1 H]]|[[E1 [err [HR H]]]|[ws [level [warning [_ [_ [_ H]]]]]]]].
  - destruct Hmode as [E|E]; [destruct (N0 E) | destruct (N1 E)].
  - rewrite (H s1) in Hrun. discriminate Hrun.
  - rewrite (H s1) in Hrun. injection Hrun as <-.
    rewrite (H s2). eexists. eexists. eexists. exists warning.
    repeat split.
Qed.

Lemma Init_does_not_depend_on_earlier_state_witness :
  exists s2',
    Init unix_host "b.log" "error" 10 3 7 RollingByDate [true]
      (final (Default (initial debug_env)))
    = Returned tt s2'.
Proof.
  destruct (Init_does_not_depend_on_earlier_state unix_host "b.log" "error" 10 3 7
              RollingByDate [true] (initial empty_env)
              (final (Default (initial debug_env))) _
              (or_intror eq_refl) eq_refl)
    as [s2' [l1 [l2 [warning [Hrun _]]]]].
  exists s2'. exact Hrun.
Defined.

(** ** The rotated-file pattern *)

Lemma str_app_inv_tail (a b c : string) : a ++ c = b ++ c -> a = b.
Proof.
  revert b. induction a as [|x a IH]; intros b H.
  - destruct b as [|y b]; [reflexivity|].
    apply (f_equal String.length) in H. cbn in H. rewrite strlen_app in H. lia.
  - destruct b as [|y b].
    + apply (f_equal String.length) in H. cbn in H. rewrite strlen_app in H. lia.
    + cbn in H. injection H as -> H. f_equal. now apply IH.
Qed.

Section Pattern.

Variable P : Platform.

Lemma date_verbs_plain :
  Strings.all_bytes (plain_byte (goos P)) "%Y%m%d" = true.
Proof. destruct (goos P); reflexivity. Qed.

Lemma Ext_date_suffix (stem : string) :
  Filepath.Ext (goos P) (stem ++ dateRollingSuffix) = dateRollingSuffix.
Proof. exact (Ext_dot (goos P) stem "%Y%m%d" date_verbs_plain). Qed.

(** a path and its pattern, split at the extension *)
Lemma RotateLogs_filename_form (filePath : string) :
  exists stem,
    filePath = stem ++ Filepath.Ext (goos P) filePath
    /\ RotateLogs_filename P filePath
       = stem ++ dateRollingSuffix ++ Filepath.Ext (goos P) filePath.
Proof.
  destruct (Ext_is_suffix P filePath) as [stem Hs]. exists stem.
  split; [exact Hs|].
  rewrite Hs at 1. apply RotateLogs_filename_split. now rewrite <- Hs.
Qed.

(** the extension of the pattern *)
Lemma Ext_of_pattern (filePath : string) :
  (Filepath.Ext (goos P) filePath = ""
   /\ Filepath.Ext (goos P) (RotateLogs_filename P filePath) = dateRollingSuffix)
  \/ (Filepath.Ext (goos P) filePath <> ""
      /\ Filepath.Ext (goos P) (RotateLogs_filename P filePath)
         = Filepath.Ext (goos P) filePath).
Proof.
  destruct (Ext_cases (goos P) filePath) as [He|[stem [r [Hr [Hp He]]]]].
  - left. split; [exact He|].
    unfold RotateLogs_filename. rewrite He. cbn [Strings.len String.length Nat.ltb Nat.leb].
    apply Ext_date_suffix.
  - right. split; [rewrite He; discriminate|].
    rewrite He. rewrite Hp at 1.
    rewrite (RotateLogs_filename_split P stem ("." ++ r)) by (now rewrite <- Hp).
    rewrite <- str_app_assoc.
    now apply Ext_dot.
Qed.

End Pattern.

(** X10.  The pattern is seven bytes longer than the path, hence never the
    path itself, while the link name given to [rotatelogs.New] is the path:
    the link and the rotated files never share a name pattern. *)
Theorem RotateLogs_pattern_differs_from_link (P : Platform) (filePath : string)
  (maxBackups maxAge : Z) :
  String.length (RotateLogs_filename P filePath) = (String.length filePath + 7)%nat
  /\ RotateLogs_filename P filePath <> filePath
  /\ In (Rotatelogs.WithLinkName filePath)
        (RotateLogs_options filePath maxBackups maxAge)
  /\ forall w,
       RotateLogs P filePath maxBackups maxAge = inl w ->
       ~ In (Rotatelogs.WithLinkName (Rotatelogs.pattern w)) (Rotatelogs.options w).
Proof.
  assert (Hlen : String.length (RotateLogs_filename P filePath)
                 = (String.length filePath + 7)%nat).
  { destruct (RotateLogs_filename_form P filePath) as [stem [Hp Hf]].
    rewrite Hf. rewrite Hp at 2. rewrite !strlen_app. cbn. lia. }
  assert (Hne : RotateLogs_filename P filePath <> filePath).
  { intros E. rewrite E in Hlen. lia. }
  split; [exact Hlen|]. split; [exact Hne|]. split.
  { unfold RotateLogs_options. destruct (_ >? _); cbn [app In]; auto. }
  intros w. unfold RotateLogs, rotatelogs_New.
  destruct (New_error P _ _); [discriminate|]. intros [= <-].
  cbn [Rotatelogs.pattern Rotatelogs.options].
  unfold RotateLogs_options. destruct (_ >? _); cbn [app In];
    intros [H|[H|[H|[]]]]; try discriminate H; injection H as H;
    apply Hne; congruence.
Qed.

(** X11.  The pattern always has an extension: that of the path when the
    path has one, and [".%Y%m%d"] otherwise. *)
Theorem RotateLogs_pattern_keeps_extension (P : Platform) (filePath : string) :
  Filepath.Ext (goos P) (RotateLogs_filename P filePath)
  = (if String.eqb (Filepath.Ext (goos P) filePath) ""
     then ".%Y%m%d"
     else Filepath.Ext (goos P) filePath)
  /\ Filepath.Ext (goos P) (RotateLogs_filename P filePath) <> "".
Proof.
  destruct (Ext_of_pattern P filePath) as [[He Hp]|[He Hp]]; rewrite Hp.
  - rewrite He. split; [reflexivity | discriminate].
  - destruct (String.eqb_spec (Filepath.Ext (goos P) filePath) "") as [E|_];
      [destruct (He E)|]. split; [reflexivity | exact He].
Qed.

(** X12.  Two paths with the same pattern are the same path. *)
Theorem RotateLogs_pattern_injective (P : Platform) (path1 path2 : string)
  (Hsame : RotateLogs_filename P path1 = RotateLogs_filename P path2) :
  path1 = path2.
Proof.
  destruct (RotateLogs_filename_form P path1) as [stem1 [Hp1 Hf1]].
  destruct (RotateLogs_filename_form P path2) as [stem2 [Hp2 Hf2]].
  pose proof (Ext_of_pattern P path1) as H1.
  pose proof (Ext_of_pattern P path2) as H2.
  rewrite Hsame in H1.
  destruct H1 as [[He1 Hx1]|[He1 Hx1]], H2 as [[He2 Hx2]|[He2 Hx2]].
  - rewrite Hp1, Hp2, He1, He2.
    rewrite Hf1, Hf2, He1, He2 in Hsame.
    rewrite <- !str_app_assoc in Hsame.
    apply str_app_inv_tail in Hsame. apply str_app_inv_tail in Hsame.
    now rewrite Hsame.
  - exfalso. rewrite Hx1 in Hx2.
    rewrite Hf1, Hf2, He1, <- Hx2 in Hsame.
    rewrite !str_app_empty_r in Hsame.
    rewrite <- (str_app_assoc stem2) in Hsame.
    apply str_app_inv_tail in Hsame.
    rewrite He1, str_app_empty_r in Hp1. rewrite Hp1, Hsame in He1.
    rewrite Ext_date_suffix in He1.
    discriminate He1.
  - exfalso. rewrite Hx2 in Hx1.
    rewrite Hf1, Hf2, He2, <- Hx1 in Hsame.
    rewrite !str_app_empty_r in Hsame.
    rewrite <- (str_app_assoc stem1) in Hsame.
    apply str_app_inv_tail in Hsame.
    rewrite He2, str_app_empty_r in Hp2. rewrite Hp2, <- Hsame in He2.
    rewrite Ext_date_suffix in He2.
    discriminate He2.
  - rewrite Hx1 in Hx2.
    rewrite Hf1, Hf2, <- Hx2 in Hsame.
    rewrite <- !str_app_assoc in Hsame.
    apply str_app_inv_tail in Hsame. apply str_app_inv_tail in Hsame.
    rewrite Hp1, Hp2, Hsame, Hx2. reflexivity.
Qed.

Lemma RotateLogs_pattern_injective_witness :
  RotateLogs_filename unix_host "app.log" = RotateLogs_filename unix_host "app.log"
  /\ "app.log" = "app.log".
Proof.
  split; [reflexivity|].
  apply (RotateLogs_pattern_injective unix_host "app.log" "app.log"). reflexivity.
Defined.

(** ** The retention switch *)

(** X13.  The parameter that loses the comparison does not reach
    [rotatelogs.New]: while [maxBackups > maxAge], the options are the same
    for every [maxBackups]; while [maxBackups <= maxAge], they are the same
    for every [maxAge]. *)
Theorem retention_ignores_the_other_parameter (filePath : string)
  (maxBackups maxBackups' maxAge maxAge' : Z)
  (Hb : GoInt.is_int maxBackups) (Hb' : GoInt.is_int maxBackups') :
  (maxBackups > maxAge -> maxBackups' > maxAge ->
   RotateLogs_options filePath (GoInt.to_uint maxBackups) maxAge
   = RotateLogs_options filePath (GoInt.to_uint maxBackups') maxAge)
  /\ (maxBackups <= maxAge -> maxBackups <= maxAge' ->
      RotateLogs_options filePath (GoInt.to_uint maxBackups) maxAge
      = RotateLogs_options filePath (GoInt.to_uint maxBackups) maxAge').
Proof.
  unfold RotateLogs_options. rewrite !to_int_to_uint by assumption.
  split.
  - intros H H'.
    destruct (Z.gtb_spec maxBackups maxAge); [|lia].
    destruct (Z.gtb_spec maxBackups' maxAge); [|lia]. reflexivity.
  - intros H H'.
    destruct (Z.gtb_spec maxBackups maxAge); [lia|].
    destruct (Z.gtb_spec maxBackups maxAge'); [lia|]. reflexivity.
Qed.

Lemma retention_ignores_the_other_parameter_witness :
  RotateLogs_options "app.log" (GoInt.to_uint 10) 3
  = RotateLogs_options "app.log" (GoInt.to_uint 1000) 3
  /\ RotateLogs_options "app.log" (GoInt.to_uint 3) 10
     = RotateLogs_options "app.log" (GoInt.to_uint 3) 365.
Proof.
  assert (H10 : GoInt.is_int 10) by (unfold GoInt.is_int, GoInt.half_modulus; lia).
  assert (H1000 : GoInt.is_int 1000) by (unfold GoInt.is_int, GoInt.half_modulus; lia).
  assert (H3 : GoInt.is_int 3) by (unfold GoInt.is_int, GoInt.half_modulus; lia).
  split.
  - apply (proj1 (retention_ignores_the_other_parameter "app.log" 10 1000 3 3 H10 H1000));
      lia.
  - apply (proj2 (retention_ignores_the_other_parameter "app.log" 3 3 10 365 H3 H3));
      lia.
Defined.

(** X14.  Values out of range are passed on unchecked.  A negative
    [maxBackups] that does not exceed [maxAge] becomes the rotation count
    [2^64 + maxBackups], at least [2^63].  A [maxAge] that is zero or
    negative (down to 106751 days) and below [maxBackups] becomes a
    [WithMaxAge] of a duration that is not positive. *)
Theorem out_of_range_retention_is_passed_on (filePath : string) (maxBackups maxAge : Z)
  (Hb : GoInt.is_int maxBackups) :
  (maxBackups < 0 -> maxBackups <= maxAge ->
   retention (RotateLogs_options filePath (GoInt.to_uint maxBackups) maxAge)
   = [Rotatelogs.WithRotationCount (GoInt.modulus + maxBackups)]
   /\ GoInt.half_modulus <= GoInt.modulus + maxBackups)
  /\ (-106751 <= maxAge <= 0 -> maxAge < maxBackups ->
      retention (RotateLogs_options filePath (GoInt.to_uint maxBackups) maxAge)
      = [Rotatelogs.WithMaxAge (maxAge * day)]
      /\ maxAge * day <= 0).
Proof.
  unfold RotateLogs_options, retention. rewrite to_int_to_uint by assumption.
  split.
  - intros Hneg Hle.
    destruct (Z.gtb_spec maxBackups maxAge); [lia|].
    cbn [filter app Rotatelogs.is_retention].
    unfold GoInt.is_int, GoInt.half_modulus in Hb.
    unfold GoInt.to_uint, GoInt.modulus, GoInt.half_modulus.
    split; [|lia].
    do 2 f_equal.
    rewrite <- (Z.mod_add maxBackups 1 (2 ^ 64)) by lia.
    rewrite Z.mod_small; lia.
  - intros Ha Hlt.
    destruct (Z.gtb_spec maxBackups maxAge); [|lia].
    cbn [filter app Rotatelogs.is_retention].
    rewrite days_exact by lia.
    split; [reflexivity|].
    unfold day, GoTime.Hour, GoTime.Minute, GoTime.Second, GoTime.Nanosecond. lia.
Qed.

Lemma out_of_range_retention_is_passed_on_witness :
  retention (RotateLogs_options "app.log" (GoInt.to_uint (-1)) 7)
  = [Rotatelogs.WithRotationCount 18446744073709551615]
  /\ retention (RotateLogs_options "app.log" (GoInt.to_uint 5) (-1))
     = [Rotatelogs.WithMaxAge (-86400000000000)].
Proof.
  assert (Hm : GoInt.is_int (-1)) by (unfold GoInt.is_int, GoInt.half_modulus; lia).
  assert (H5 : GoInt.is_int 5) by (unfold GoInt.is_int, GoInt.half_modulus; lia).
  split.
  - apply (proj1 (out_of_range_retention_is_passed_on "app.log" (-1) 7 Hm)); lia.
  - apply (proj2 (out_of_range_retention_is_passed_on "app.log" 5 (-1) H5)); lia.
Defined.
